(** * SMHI open-data client: shallow embedding of [smhi/smhi.py]

    The development follows the module top-down:
    - [Py]: the handful of Python built-ins the module relies on
      ([int], [float], [sorted], the [">3"] and [".1f"] format specs),
      with IEEE-754 binary64 values taken from [SpecFloat];
    - the JSON shapes the three endpoints answer with, as records whose
      optional members are [option]s, so that a missing member is the
      [KeyError] that the subscript raises in the source;
    - a state-and-exception monad [M] over the observable world of a run
      (standard output, log records, requests issued, clock reads);
    - [SmhiParser]: [parameters], [get_station_data] and
      [temperatures_parameter_2], statement by statement;
    - the properties of these three operations. *)

From Stdlib Require Import ZArith List String Ascii Bool Lia.
From Stdlib Require Import Permutation Sorted SpecFloat DecimalString.
Import ListNotations.

Local Open Scope string_scope.
Local Open Scope list_scope.
Local Open Scope Z_scope.

(** String concatenation, kept apart from list append. *)
Infix "+++" := String.append (at level 60, right associativity).

(** ** Exceptions and fallible results *)

(** The exception classes that can escape the modelled statements. *)
Inductive exn : Type :=
| KeyError (k : string)   (* subscript of a dict by an absent key *)
| IndexError              (* subscript of an empty list by 0 *)
| TypeError               (* subscript of a value of the wrong type *)
| ValueError              (* int() / float() / fromtimestamp() rejects its argument *)
| JSONDecodeError         (* Response.json() on a body that is not JSON *)
| ConnectionError.        (* requests.get() could not obtain a response *)

Inductive result (A : Type) : Type :=
| Ok (a : A)
| Raise (e : exn).
Arguments Ok {A} a.
Arguments Raise {A} e.

Definition rbind {A B} (r : result A) (k : A -> result B) : result B :=
  match r with
  | Ok a => k a
  | Raise e => Raise e
  end.

(** [d[k]] on a dict whose member [k] may be absent. *)
Definition getitem {A} (k : string) (member : option A) : result A :=
  match member with
  | Some a => Ok a
  | None => Raise (KeyError k)
  end.

(** [l[0]] on a list. *)
Definition getitem0 {A} (l : list A) : result A :=
  match l with
  | a :: _ => Ok a
  | [] => Raise IndexError
  end.

(** ** Python built-ins

    A [string] holds the UTF-8 bytes of a Python [str]; comparing two of
    them byte by byte is comparing the [str]s code point by code point.
    [int], [float] and the width of [">3"] are modelled for ASCII text:
    the interpreter also reads the decimal digits and the white space of
    other scripts, and counts a character of several bytes once. *)

Module Py.

(** Binary64: 53 bits of precision, exponent of the infinities 1024. *)
Definition prec : Z := 53.
Definition emax : Z := 1024.

Definition float : Type := spec_float.
Definition pos_inf : float := S754_infinity false.   (* float("+inf") *)
Definition neg_inf : float := S754_infinity true.    (* float("-inf") *)

(** [a < b] and [a > b] on floats; both are [False] as soon as a NaN is
    involved. On the canonical values that [float_of_str] returns,
    [SFcompare] is the numeric order. *)
Definition lt (a b : float) : bool := SFltb a b.
Definition gt (a b : float) : bool := SFltb b a.
Definition le (a b : float) : bool := SFleb a b.
Definition eq (a b : float) : bool := SFeqb a b.

Definition is_finite (f : float) : bool :=
  match f with
  | S754_zero _ | S754_finite _ _ _ => true
  | S754_infinity _ | S754_nan => false
  end.

Definition is_nan (f : float) : bool :=
  match f with
  | S754_nan => true
  | _ => false
  end.

(** *** Characters *)

Definition code (c : ascii) : Z := Z.of_N (N_of_ascii c).

(** Whitespace that [int] and [float] strip: TAB..CR and space. *)
Definition isspace (c : ascii) : bool :=
  let n := code c in
  ((9 <=? n) && (n <=? 13)) || (n =? 32).

Definition digit_of (c : ascii) : option Z :=
  let n := code c in
  if (48 <=? n) && (n <=? 57) then Some (n - 48) else None.

Definition lower (c : ascii) : ascii :=
  let n := code c in
  if (65 <=? n) && (n <=? 90) then ascii_of_N (Z.to_N (n + 32)) else c.

Fixpoint lstrip (s : list ascii) : list ascii :=
  match s with
  | c :: s' => if isspace c then lstrip s' else s
  | [] => []
  end.

Definition strip (s : list ascii) : list ascii :=
  rev (lstrip (rev (lstrip s))).

(** [digitpart ::= digit (["_"] digit)*], read greedily; the digits read
    and the unread rest. *)
Fixpoint read_digits (s : list ascii) : list Z * list ascii :=
  match s with
  | c :: s' =>
      match digit_of c with
      | None => ([], s)
      | Some d =>
          match s' with
          | "_"%char :: ((c2 :: _) as t) =>
              match digit_of c2 with
              | Some _ => let '(ds, r) := read_digits t in (d :: ds, r)
              | None => ([d], s')
              end
          | _ => let '(ds, r) := read_digits s' in (d :: ds, r)
          end
      end
  | [] => ([], [])
  end.

Definition number_of (ds : list Z) : Z :=
  fold_left (fun a d => 10 * a + d) ds 0.

(** An optional sign; [true] for minus. *)
Definition read_sign (s : list ascii) : bool * list ascii :=
  match s with
  | "-"%char :: s' => (true, s')
  | "+"%char :: s' => (false, s')
  | _ => (false, s)
  end.

(** *** [int(s)] for a [str] argument, base 10

    More than 4300 digits are refused (the interpreter's default
    [int_max_str_digits]). *)
Definition int_max_str_digits : nat := 4300.

Definition int (s : string) : result Z :=
  let '(neg, body) := read_sign (strip (list_ascii_of_string s)) in
  match read_digits body with
  | ((_ :: _) as ds, []) =>
      if (int_max_str_digits <? List.length ds)%nat then Raise ValueError
      else Ok (if neg then - number_of ds else number_of ds)
  | _ => Raise ValueError
  end.

(** *** [float(s)] for a [str] argument *)

(** The binary64 nearest (ties to even) to [n * 10 ^ k], [n > 0]. A
    negative [k] is a division: the quotient is taken with at least 64
    significant bits and the remainder decides the rounding. *)
Definition round_decimal (neg : bool) (n k : Z) : float :=
  match n with
  | Zpos p =>
      if 0 <=? k then
        match n * 10 ^ k with
        | Zpos m => binary_round prec emax neg m 0
        | _ => S754_zero neg
        end
      else
        let d := 10 ^ (- k) in
        let s := Z.log2 d + 64 in
        let '(q, r) := Z.div_eucl (Z.shiftl n s) d in
        binary_round_aux prec emax neg q (- s) (new_location d r)
  | _ => S754_zero neg
  end.

Definition is_word (w : string) (s : list ascii) : bool :=
  if list_eq_dec ascii_dec (map lower s) (list_ascii_of_string w)
  then true else false.

(** The exponent part, when [s] starts with a well-formed one. *)
Definition read_exponent (s : list ascii) : Z * list ascii :=
  match s with
  | c :: s' =>
      if is_word "e" [c] then
        let '(eneg, s2) := read_sign s' in
        match read_digits s2 with
        | ((_ :: _) as ds, r) => (if eneg then - number_of ds else number_of ds, r)
        | _ => (0, s)
        end
      else (0, s)
  | [] => (0, s)
  end.

Definition float_of_str (s : string) : result float :=
  let '(neg, body) := read_sign (strip (list_ascii_of_string s)) in
  if is_word "inf" body || is_word "infinity" body then Ok (S754_infinity neg)
  else if is_word "nan" body then Ok S754_nan
  else
    let '(ip, r1) := read_digits body in
    let '(fp, r2) :=
      match r1 with
      | "."%char :: r => read_digits r
      | _ => ([], r1)
      end in
    let '(e, r3) := read_exponent r2 in
    match ip ++ fp, r3 with
    | (_ :: _) as ds, [] =>
        Ok (round_decimal neg (number_of ds) (e - Z.of_nat (List.length fp)))
    | _, _ => Raise ValueError
    end.

(** *** Formatting *)

(** [str(z)] for an [int]. *)
Definition str_of_int (z : Z) : string :=
  NilZero.string_of_int (Z.to_int z).

(** Nearest integer, ties to even, of [n / d] for [d > 0]. *)
Definition round_half_even (n d : Z) : Z :=
  let q := n / d in
  let r := n mod d in
  match 2 * r ?= d with
  | Lt => q
  | Gt => q + 1
  | Eq => if Z.even q then q else q + 1
  end.

(** [format(f, ".1f")]: the exact value rounded to one decimal. *)
Definition format_1f (f : float) : string :=
  let sign (s : bool) := if s then "-" else "" in
  match f with
  | S754_nan => "nan"
  | S754_infinity s => sign s +++ "inf"
  | S754_zero s => sign s +++ "0.0"
  | S754_finite s m e =>
      let tenths :=
        if 0 <=? e then 10 * Zpos m * 2 ^ e
        else round_half_even (10 * Zpos m) (2 ^ (- e)) in
      sign s +++ str_of_int (tenths / 10) +++ "." +++ str_of_int (tenths mod 10)
  end.

(** [format(s, ">3")] for a [str]: right-aligned in a field of width 3. *)
Definition rjust3 (s : string) : string :=
  match String.length s with
  | O => "   " +++ s
  | S O => "  " +++ s
  | S (S O) => " " +++ s
  | _ => s
  end.

(** *** [sorted(l, key=f)]

    The sort is stable, which determines its result: insertion from the
    right, each element placed before the first one that does not
    precede it. *)
Section Sorted.
Context {A K : Type} (leb : K -> K -> bool) (key : A -> K).

Fixpoint insert (x : A) (l : list A) : list A :=
  match l with
  | [] => [x]
  | y :: l' => if leb (key x) (key y) then x :: l else y :: insert x l'
  end.

Definition sorted (l : list A) : list A := fold_right insert [] l.
End Sorted.

End Py.

(** ** [datetime] and [timedelta]

    Instants and durations are counted in microseconds, the resolution of
    both classes; instants are offsets from the Unix epoch in UTC. *)

Module Datetime.

Definition second : Z := 1000000.
Definition day : Z := 86400 * second.

(** [timedelta(days=n)]. *)
Definition timedelta_days (n : Z) : Z := n * day.

(** [td.days]. *)
Definition days (td : Z) : Z := td / day.

(** First and last second that [datetime] represents:
    0001-01-01T00:00:00 and 9999-12-31T23:59:59. *)
Definition min_timestamp : Z := -62135596800.
Definition max_timestamp : Z := 253402300799.

(** [datetime.fromtimestamp(t, tz=timezone.utc)] for an [int] number of
    seconds; it raises outside the years 1..9999 (as [ValueError], or for
    very large arguments as [OverflowError] or [OSError], which are not
    told apart here). *)
Definition fromtimestamp (t : Z) : result Z :=
  if (min_timestamp <=? t) && (t <=? max_timestamp) then Ok (t * second)
  else Raise ValueError.

End Datetime.

(** ** Data

    The members that the module reads, typed as the API documents them.
    A member that a document may lack is an [option]. *)

(** An entry of the parameter catalog. *)
Record Param : Type := mkParam {
  p_key : string;
  p_title : string;
  p_summary : string
}.

(** An entry of the station list of a parameter; [name] may be absent. *)
Record Station : Type := mkStation {
  st_key : string;
  st_name : option string;
  st_updated : Z                       (* epoch milliseconds *)
}.

(** The [station] object of a station-data document. [so_rest] are its
    further members, which the module carries along and never reads. *)
Record StationObject : Type := mkStationObject {
  so_key : option string;
  so_name : option string;
  so_rest : list (string * string)
}.

(** An entry of the [value] array of a station-data document. *)
Record Observation : Type := mkObservation {
  o_value : option string
}.

(** The [station] member is a list in the station-list document and an
    object in the station-data document. *)
Inductive StationMember : Type :=
| StationList (l : list Station)
| StationObj (o : StationObject).

(** A decoded JSON document, seen through the three members in use. *)
Record Document : Type := mkDocument {
  resource : option (list Param);
  station_member : option StationMember;
  value : option (list Observation)
}.

(** [requests.Response]; [json = None] is a body that does not decode. *)
Record Response : Type := mkResponse {
  status_code : Z;
  url : string;
  json : option Document
}.

(** [StationTemp = namedtuple("StationTemp", ["key", "name", "temp",
    "station"])]; [key] and [station] are [None] in the two placeholders
    of the scan. *)
Record StationTemp : Type := mkStationTemp {
  key : option string;
  name : string;
  temp : Py.float;
  station : option StationObject
}.

(** ** The world of a run *)

Inductive level : Type := DEBUG | INFO | WARNING.

Inductive logarg : Type :=
| AStr (s : string)
| AInt (z : Z)
| AStationTemp (s : StationTemp).

(** One call on [logger]: level, format string, arguments. *)
Record LogRecord : Type := mkLogRecord {
  lvl : level;
  msg : string;
  args : list logarg
}.

(** What a run can change. *)
Record World : Type := mkWorld {
  stdout : list string;        (* lines printed, oldest first *)
  log : list LogRecord;        (* calls on the logger, oldest first *)
  requests : list string;      (* URLs requested, oldest first *)
  clock_reads : nat            (* calls of datetime.now so far *)
}.

Definition initial_world : World :=
  {| stdout := []; log := []; requests := []; clock_reads := 0 |}.

(** What a run can only read: the upstream service, as the answer to a
    GET of each URL, and the clock, as the UTC instant (microseconds
    since the epoch) that the n-th call of [datetime.now] returns. *)
Record Env : Type := mkEnv {
  http : string -> result Response;
  clock : nat -> Z
}.

(** Statements: a state transformer that may raise. The world reached
    when the exception is raised is kept. *)
Definition M (A : Type) : Type := World -> result A * World.

Definition ret {A} (a : A) : M A := fun w => (Ok a, w).

Definition bind {A B} (m : M A) (k : A -> M B) : M B :=
  fun w =>
    match m w with
    | (Ok a, w') => k a w'
    | (Raise e, w') => (Raise e, w')
    end.

Definition lift {A} (r : result A) : M A := fun w => (r, w).

Declare Scope smhi_scope.
Delimit Scope smhi_scope with smhi.
Notation "x <- m ;; k" := (bind m (fun x => k))
  (at level 61, m at next level, right associativity) : smhi_scope.
Notation "' pat <- m ;; k" := (bind m (fun x => match x with pat => k end))
  (at level 61, pat pattern, m at next level, right associativity) : smhi_scope.
Notation "m ;; k" := (bind m (fun _ => k))
  (at level 61, right associativity) : smhi_scope.
Local Open Scope smhi_scope.

(** The value a statement returns when started in the initial world. *)
Definition value_of {A} (m : M A) : result A := fst (m initial_world).

(** The world after a line is printed, a call is logged, a URL is
    requested, the clock is read. *)
Definition printed (line : string) (w : World) : World :=
  {| stdout := stdout w ++ [line]; log := log w;
     requests := requests w; clock_reads := clock_reads w |}.

Definition logged (rec : LogRecord) (w : World) : World :=
  {| stdout := stdout w; log := log w ++ [rec];
     requests := requests w; clock_reads := clock_reads w |}.

Definition requested (u : string) (w : World) : World :=
  {| stdout := stdout w; log := log w;
     requests := requests w ++ [u]; clock_reads := clock_reads w |}.

Definition ticked (w : World) : World :=
  {| stdout := stdout w; log := log w;
     requests := requests w; clock_reads := S (clock_reads w) |}.

(** [print(line)]; the write to standard output is taken to succeed. *)
Definition print (line : string) : M unit :=
  fun w => (Ok tt, printed line w).

(** [logger.debug], [logger.info], [logger.warning]. *)
Definition logger (l : level) (m : string) (a : list logarg) : M unit :=
  fun w => (Ok tt, logged {| lvl := l; msg := m; args := a |} w).

(** [requests.get(u)]. *)
Definition requests_get (env : Env) (u : string) : M Response :=
  fun w => (http env u, requested u w).

(** [datetime.now(timezone.utc)]. *)
Definition datetime_now (env : Env) : M Z :=
  fun w => (Ok (clock env (clock_reads w)), ticked w).

(** [r.json()]. *)
Definition response_json (r : Response) : result Document :=
  match json r with
  | Some d => Ok d
  | None => Raise JSONDecodeError
  end.

(** [for x in l: acc = body(acc, x)]. *)
Fixpoint for_each {A S} (l : list A) (body : S -> A -> M S) (acc : S) : M S :=
  match l with
  | [] => ret acc
  | x :: l' => acc' <- body acc x ;; for_each l' body acc'
  end.

(** [sorted(l, key=f)] where [f] may raise: the keys are computed first,
    in order, then the decorated list is sorted. *)
Fixpoint decorate {A K} (f : A -> result K) (l : list A) : result (list (K * A)) :=
  match l with
  | [] => Ok []
  | x :: l' =>
      rbind (f x) (fun k =>
      rbind (decorate f l') (fun d => Ok ((k, x) :: d)))
  end.

Definition sorted_by_int {A} (f : A -> result Z) (l : list A) : result (list A) :=
  rbind (decorate f l) (fun d => Ok (map snd (Py.sorted Z.leb fst d))).

(** ** [class SmhiParser] *)

Record SmhiParser : Type := mkSmhiParser {
  suffix : string
}.

(** [SmhiParser()]: the suffix defaults to [".json"]. *)
Definition default_parser : SmhiParser := {| suffix := ".json" |}.

Definition BASE_URL : string := "https://opendata-download-metobs.smhi.se/api".

Definition _make_request (env : Env) (self : SmhiParser) (path : string) : M Response :=
  requests_get env (BASE_URL +++ path +++ suffix self).

Definition check_connection (env : Env) (self : SmhiParser) : M Z :=
  r <- _make_request env self "" ;;
  ret (status_code r).

(** The line printed for one parameter. *)
Definition parameter_line (param : Param) : string :=
  Py.rjust3 (p_key param) +++ ", " +++ p_title param +++ " (" +++ p_summary param +++ ")".

Definition parameters (env : Env) (self : SmhiParser) : M unit :=
  r <- _make_request env self "/version/1.0" ;;
  doc <- lift (response_json r) ;;
  res <- lift (getitem "resource" (resource doc)) ;;
  params <- lift (sorted_by_int (fun x => Py.int (p_key x)) res) ;;
  for_each params (fun _ param => print (parameter_line param)) tt.

(** [r["station"]] of a station-data document, which must be an object to
    be subscripted by a member name. *)
Definition station_object (doc : Document) : result StationObject :=
  rbind (getitem "station" (station_member doc)) (fun m =>
  match m with
  | StationObj o => Ok o
  | StationList _ => Raise TypeError
  end).

(** [float(r["value"][0]["value"])]. *)
Definition first_value (doc : Document) : result Py.float :=
  rbind (getitem "value" (value doc)) (fun v =>
  rbind (getitem0 v) (fun v0 =>
  rbind (getitem "value" (o_value v0)) Py.float_of_str)).

Definition station_data_path (station_key : string) : string :=
  "/version/1.0/parameter/2/station/" +++ station_key +++ "/period/latest-day/data".

Definition get_station_data (env : Env) (self : SmhiParser) (station : Station)
  : M (option StationTemp) :=
  let station_key := st_key station in
  r <- _make_request env self (station_data_path station_key) ;;
  if negb (status_code r =? 200) then
    logger DEBUG "URL %s returned status code %s" [AStr (url r); AInt (status_code r)] ;;
    ret None
  else
    doc <- lift (response_json r) ;;
    so <- lift (station_object doc) ;;
    station_name <- lift (getitem "name" (so_name so)) ;;
    match first_value doc with
    | Raise _ =>
        logger WARNING "Can't get temperature for station %s" [AStr station_name] ;;
        ret None
    | Ok station_temp =>
        k <- lift (getitem "key" (so_key so)) ;;
        let station_data :=
          {| key := Some k; name := station_name; temp := station_temp;
             station := Some so |} in
        logger INFO "station %s" [AStationTemp station_data] ;;
        ret (Some station_data)
    end.

(** [sorted(stations, key=lambda x: x["key"])]. Iterating an object
    instead of a list yields its member names, which cannot be
    subscripted by ["key"]. *)
Definition sorted_stations (m : StationMember) : result (list Station) :=
  match m with
  | StationList l => Ok (Py.sorted String.leb st_key l)
  | StationObj o =>
      match so_key o, so_name o, so_rest o with
      | None, None, [] => Ok []
      | _, _, _ => Raise TypeError
      end
  end.

(** The two placeholders that the scan starts from. *)
Definition min_placeholder : StationTemp :=
  {| key := None; temp := Py.pos_inf; name := "N/A"; station := None |}.
Definition max_placeholder : StationTemp :=
  {| key := None; temp := Py.neg_inf; name := "N/A"; station := None |}.

(** The two comparisons that end an iteration, on the pair
    [(min_station, max_station)]. *)
Definition update (acc : StationTemp * StationTemp) (station_data : StationTemp)
  : StationTemp * StationTemp :=
  let '(min_station, max_station) := acc in
  let max_station :=
    if Py.gt (temp station_data) (temp max_station) then station_data else max_station in
  let min_station :=
    if Py.lt (temp station_data) (temp min_station) then station_data else min_station in
  (min_station, max_station).

(** [update_td > timedelta(days=2)], for [updated] in epoch milliseconds
    already turned into an instant. *)
Definition too_old (now updated : Z) : bool :=
  Datetime.timedelta_days 2 <? now - updated.

(** One iteration of the scan. *)
Definition scan_station (env : Env) (self : SmhiParser) (now : Z)
    (acc : StationTemp * StationTemp) (station : Station)
  : M (StationTemp * StationTemp) :=
  updated <- lift (Datetime.fromtimestamp (st_updated station / 1000)) ;;
  let update_td := now - updated in
  if too_old now updated then
    station_name <- lift (getitem "name" (st_name station)) ;;
    logger DEBUG "station '%s' ignored as it's not being updated for %s days"
      [AStr station_name; AInt (Datetime.days update_td)] ;;
    ret acc
  else
    station_data <- get_station_data env self station ;;
    match station_data with
    | None => ret acc
    | Some station_data => ret (update acc station_data)
    end.

Definition highest_line (max_station : StationTemp) : string :=
  "Highest temperature: " +++ name max_station +++ ", "
    +++ Py.format_1f (temp max_station) +++ " degrees".

Definition lowest_line (min_station : StationTemp) : string :=
  "Lowest temperature: " +++ name min_station +++ ", "
    +++ Py.format_1f (temp min_station) +++ " degrees".

Definition temperatures_parameter_2 (env : Env) (self : SmhiParser) : M unit :=
  let version := "1.0" in
  let parameter := "2" in
  r <- _make_request env self ("/version/" +++ version +++ "/parameter/" +++ parameter) ;;
  doc <- lift (response_json r) ;;
  member <- lift (getitem "station" (station_member doc)) ;;
  stations <- lift (sorted_stations member) ;;
  now <- datetime_now env ;;
  '(min_station, max_station) <-
    for_each stations (scan_station env self now) (min_placeholder, max_placeholder) ;;
  print (highest_line max_station) ;;
  print (lowest_line min_station).

(** ** [main]

    [argparse] is taken as given: [parse_args] of an invocation is what
    [parser.parse_args()] does with its command line, either the
    namespace it returns or the exit it takes, after [-h] or on an
    argument it does not know, with the lines it has then written to
    standard output. *)

Record Namespace : Type := mkNamespace {
  ns_parameters : bool;        (* args.parameters *)
  ns_temperatures : bool       (* args.temperatures *)
}.

Inductive Parse : Type :=
| Parsed (args : Namespace)
| ParseExit (status : Z) (out : list string).

Record Invocation : Type := mkInvocation {
  argv : list string;          (* sys.argv *)
  parse_args : Parse
}.

(** How [main] ends: it returns, it writes the help to standard error
    and exits with status 1, it exits inside [parse_args], or an
    exception leaves it. *)
Inductive Ending : Type :=
| Returns
| Usage
| Exits (status : Z)
| Uncaught (e : exn).

(** [if b: m]. *)
Definition when (b : bool) (m : M unit) : M unit :=
  if b then m else ret tt.

Definition main (inv : Invocation) (env : Env) (w : World) : Ending * World :=
  match parse_args inv with
  | ParseExit status out => (Exits status, fold_left (fun w' line => printed line w') out w)
  | Parsed args =>
      if Nat.eqb (List.length (argv inv)) 1 then (Usage, w)
      else
        let parser := default_parser in
        match (when (ns_parameters args) (parameters env parser) ;;
               when (ns_temperatures args) (temperatures_parameter_2 env parser)) w with
        | (Ok _, w') => (Returns, w')
        | (Raise e, w') => (Uncaught e, w')
        end
  end.

(** ** Concrete services, stations and instants

    [three_stations] is the integration test of the repository; the
    others vary it. *)

Module Example.

Definition t0 : Z := 1700000000.                 (* seconds *)
Definition now : Z := t0 * Datetime.second.

Definition station_doc (k n v : string) : Document :=
  {| resource := None;
     station_member := Some (StationObj {| so_key := Some k; so_name := Some n; so_rest := [] |});
     value := Some [ {| o_value := Some v |} ] |}.

Definition list_doc (l : list Station) : Document :=
  {| resource := None; station_member := Some (StationList l); value := None |}.

Definition fresh (k : string) : Station :=
  {| st_key := k; st_name := None; st_updated := t0 * 1000 |}.

Definition ok (u : string) (d : Document) : result Response :=
  Ok {| status_code := 200; url := u; json := Some d |}.

Definition serve (table : list (string * Document)) (u : string) : result Response :=
  match find (fun e => String.eqb (fst e) u) table with
  | Some e => ok u (snd e)
  | None => Ok {| status_code := 404; url := u; json := None |}
  end.

Definition data_url (k : string) : string :=
  BASE_URL +++ station_data_path k +++ ".json".
Definition list_url : string := BASE_URL +++ "/version/1.0/parameter/2.json".

Definition env (table : list (string * Document)) : Env :=
  {| http := serve table; clock := fun _ => now |}.

Definition three_stations : Env :=
  env [ (list_url, list_doc [fresh "3"; fresh "1"; fresh "2"]);
        (data_url "3", station_doc "3" "station3" "10.0");
        (data_url "2", station_doc "2" "station2" "11.0");
        (data_url "1", station_doc "1" "station1" "12.0") ].

(** The lines the integration test expects. *)
Definition expected_lines : list string :=
  [ "Highest temperature: station1, 12.0 degrees";
    "Lowest temperature: station3, 10.0 degrees" ].

(** A station-data document whose temperature is the string [v]. *)
Definition one_station (v : string) : Env :=
  env [ (list_url, list_doc [fresh "1"]);
        (data_url "1", station_doc "1" "station1" v) ].

(** Two fresh stations, listed as "2" then "1", both at [v]. *)
Definition two_stations (v : string) : Env :=
  env [ (list_url, list_doc [fresh "2"; fresh "1"]);
        (data_url "1", station_doc "1" "station1" v);
        (data_url "2", station_doc "2" "station2" v) ].

(** A station last updated at the epoch, without a name. *)
Definition stale_unnamed : Station :=
  {| st_key := "1"; st_name := None; st_updated := 0 |}.

Definition only_stale_unnamed : Env :=
  env [ (list_url, list_doc [stale_unnamed]) ].

(** Station 1 answers with a [station] object without [name]; station 2
    is in order. *)
Definition unnamed_answer : Env :=
  env [ (list_url, list_doc [fresh "1"; fresh "2"]);
        (data_url "1",
         {| resource := None;
            station_member :=
              Some (StationObj {| so_key := Some "1"; so_name := None; so_rest := [] |});
            value := Some [ {| o_value := Some "5.0" |} ] |});
        (data_url "2", station_doc "2" "station2" "6.0") ].



(** A world with some history. *)
Definition later_world : World :=
  {| stdout := ["earlier output"]; log := []; requests := ["earlier request"];
     clock_reads := 5 |}.

(** The same service as [three_stations], behind another clock. *)
Definition three_stations_again : Env :=
  {| http := http three_stations;
     clock := fun n => if Nat.eqb n 5 then now else 0 |}.

(** A station last updated at the epoch, with a name. *)
Definition stale_named : Station :=
  {| st_key := "1"; st_name := Some "A"; st_updated := 0 |}.

Definition only_stale_named : Env :=
  env [ (list_url, list_doc [stale_named]) ].

(** A catalog listed out of order, with a two-digit key that sorts
    before a one-digit key as a string. *)
Definition catalog : Env :=
  env [ (BASE_URL +++ "/version/1.0.json",
         {| resource := Some [ {| p_key := "20"; p_title := "param20"; p_summary := "summary20" |};
                               {| p_key := "10"; p_title := "param10"; p_summary := "summary10" |};
                               {| p_key := "2"; p_title := "param2"; p_summary := "summary2" |} ];
            station_member := None; value := None |}) ].




(** The integer value of a key, 0 when it has none. *)
Definition int_key (x : Param) : Z :=
  match Py.int (p_key x) with
  | Ok z => z
  | Raise _ => 0
  end.

(** The reading of station 1 when its temperature is "10.0". *)
Definition station1_at_10 : StationTemp :=
  {| key := Some "1"; name := "station1";
     temp := S754_finite false 5629499534213120 (-49);
     station := Some {| so_key := Some "1"; so_name := Some "station1";
                        so_rest := [] |} |}.

(** The answer for station 1 names another station. *)
Definition mismatch : Env :=
  env [ (data_url "1", station_doc "7" "station7" "3.5") ].

End Example.

(** ** Vocabulary of the statements *)

(** What [get_station_data] returns for a station. *)
Definition reading (env : Env) (self : SmhiParser) (s : Station)
  : result (option StationTemp) :=
  value_of (get_station_data env self s).

(** What one iteration of the scan contributes: nothing for a station
    skipped as too old or without a reading, a reading otherwise, or the
    exception that ends the run. *)
Definition visit (env : Env) (self : SmhiParser) (now : Z) (s : Station)
  : result (option StationTemp) :=
  rbind (Datetime.fromtimestamp (st_updated s / 1000)) (fun updated =>
  if too_old now updated
  then rbind (getitem "name" (st_name s)) (fun _ => Ok None)
  else reading env self s).

Definition completes (env : Env) (self : SmhiParser) (now : Z) (s : Station) : Prop :=
  exists o, visit env self now s = Ok o.

(** The readings of the eligible stations of a list, in list order. *)
Definition readings (env : Env) (self : SmhiParser) (now : Z) (l : list Station)
  : list StationTemp :=
  flat_map (fun s => match visit env self now s with
                     | Ok (Some r) => [r]
                     | _ => []
                     end) l.

(** The document carries a temperature that [float] accepts as [t]:
    [value] is present and not empty, and [value[0].value] is present and
    parses. *)
Definition parses (doc : Document) (t : Py.float) : Prop :=
  exists o rest v,
    value doc = Some (o :: rest) /\ o_value o = Some v /\ Py.float_of_str v = Ok t.

(** A decimal rendering with exactly one digit after the point. *)
Definition one_fractional_digit (s : string) : Prop :=
  exists sgn i d,
    (sgn = "" \/ sgn = "-") /\ 0 <= i /\ 0 <= d <= 9 /\
    s = sgn +++ Py.str_of_int i +++ "." +++ Py.str_of_int d.


(** Text in ASCII: every byte is a character of its own, so that the
    length in bytes is the number of characters. *)
Definition ascii_char (c : ascii) : Prop := Py.code c < 128.

Definition ascii_only (s : string) : Prop :=
  Forall ascii_char (list_ascii_of_string s).

(** [a] may stand before [b] in a list sorted by [key]. *)
Definition ordered {A K} (leb : K -> K -> bool) (key : A -> K) (a b : A) : Prop :=
  leb (key a) (key b) = true.

(** The station list is fetched: the request of the list succeeds with a
    document whose [station] member is the list [l]. *)
Definition fetches (env : Env) (self : SmhiParser) (l : list Station) : Prop :=
  exists r doc,
    http env (BASE_URL +++ "/version/1.0/parameter/2" +++ suffix self) = Ok r /\
    json r = Some doc /\
    station_member doc = Some (StationList l).

(** The lines that a statement adds to standard output. *)
Definition prints {A} (m : M A) (w : World) (lines : list string) : Prop :=
  stdout (snd (m w)) = stdout w ++ lines.

Definition distinct_temps (l : list StationTemp) : Prop :=
  ForallOrdPairs (fun a b => Py.eq (temp a) (temp b) = false) l.

Definition greatest (r : StationTemp) (l : list StationTemp) : Prop :=
  In r l /\ forall x, In x l -> Py.le (temp x) (temp r) = true.

Definition least (r : StationTemp) (l : list StationTemp) : Prop :=
  In r l /\ forall x, In x l -> Py.le (temp r) (temp x) = true.


(** The same, from the timestamp cut to whole seconds as the scan does. *)
Definition age_in_seconds (now : Z) (s : Station) : Z :=
  now - (st_updated s / 1000) * Datetime.second.

Definition representable (s : Station) : Prop :=
  Datetime.min_timestamp <= st_updated s / 1000 <= Datetime.max_timestamp.

(** The pair [(min_station, max_station)] after the scan of [l] from
    [acc], or the exception that ends the scan. *)
Fixpoint scan (env : Env) (self : SmhiParser) (now : Z) (l : list Station)
    (acc : StationTemp * StationTemp) : result (StationTemp * StationTemp) :=
  match l with
  | [] => Ok acc
  | s :: l' =>
      rbind (visit env self now s) (fun o =>
      scan env self now l' (match o with Some r => update acc r | None => acc end))
  end.

(** The pair that a run arrives at when the clock reads [now]. *)
Definition extrema (env : Env) (self : SmhiParser) (now : Z)
  : result (StationTemp * StationTemp) :=
  rbind (http env (BASE_URL +++ "/version/1.0/parameter/2" +++ suffix self)) (fun r =>
  rbind (response_json r) (fun doc =>
  rbind (getitem "station" (station_member doc)) (fun member =>
  rbind (sorted_stations member) (fun stations =>
  scan env self now stations (min_placeholder, max_placeholder))))).

(** The lines of a run in which no accumulator was replaced. *)
Definition placeholder_lines : list string :=
  [ "Highest temperature: N/A, -inf degrees";
    "Lowest temperature: N/A, inf degrees" ].


(** The two lines for a pair. *)
Definition report (acc : StationTemp * StationTemp) : list string :=
  [highest_line (snd acc); lowest_line (fst acc)].

(** One accumulator of the scan on its own: [keep] replaces it by a
    station that compares better, [best] is what is left after a list. *)
Definition keep (better : Py.float -> Py.float -> bool) (m x : StationTemp) : StationTemp :=
  if better (temp x) (temp m) then x else m.

Definition best (better : Py.float -> Py.float -> bool) (l : list StationTemp)
    (m : StationTemp) : StationTemp :=
  fold_left (keep better) l m.

(** A statement that leaves standard output and the clock alone. *)
Definition quiet {A} (m : M A) : Prop :=
  forall w, stdout (snd (m w)) = stdout w /\ clock_reads (snd (m w)) = clock_reads w.

(** A statement whose result does not depend on the world it starts in. *)
Definition stateless {A} (m : M A) : Prop :=
  forall w, fst (m w) = value_of m.

(** ** Vocabulary of the further properties *)

(** The three URLs that the operations build. *)
Definition catalog_url (self : SmhiParser) : string :=
  BASE_URL +++ "/version/1.0" +++ suffix self.

Definition list_url (self : SmhiParser) : string :=
  BASE_URL +++ "/version/1.0/parameter/2" +++ suffix self.

Definition data_url (self : SmhiParser) (s : Station) : string :=
  BASE_URL +++ station_data_path (st_key s) +++ suffix self.

(** A URL under the base URL that ends with the suffix of the parser. *)
Definition own_url (self : SmhiParser) (u : string) : Prop :=
  exists path, u = BASE_URL +++ path +++ suffix self.

(** The scan asks the service about [s]: the timestamp is one that
    [datetime] represents and the station is not too old. *)
Definition asked (now : Z) (s : Station) : bool :=
  match Datetime.fromtimestamp (st_updated s / 1000) with
  | Ok updated => negb (too_old now updated)
  | Raise _ => false
  end.

(** The record logged for a reading, and the test for such a record. *)
Definition info_record (station_data : StationTemp) : LogRecord :=
  {| lvl := INFO; msg := "station %s"; args := [AStationTemp station_data] |}.

Definition is_info (rec : LogRecord) : bool :=
  match lvl rec with
  | INFO => true
  | _ => false
  end.

(** Further services. *)
Module Scenario.

(** The stations of [Example.three_stations], listed in another order,
    behind a service that also answers a URL the run never asks for. *)
Definition three_stations_reordered : Env :=
  Example.env
    [ (Example.list_url,
       Example.list_doc [Example.fresh "1"; Example.fresh "2"; Example.fresh "3"]);
      (Example.data_url "3", Example.station_doc "3" "station3" "10.0");
      (Example.data_url "2", Example.station_doc "2" "station2" "11.0");
      (Example.data_url "1", Example.station_doc "1" "station1" "12.0");
      (Example.data_url "4", Example.station_doc "4" "station4" "13.0") ].

Definition param (k t : string) : Param :=
  {| p_key := k; p_title := t; p_summary := "" |}.

Definition catalog_of (res : list Param) : Env :=
  Example.env
    [ (BASE_URL +++ "/version/1.0.json",
       {| resource := Some res; station_member := None; value := None |}) ].

(** A service whose station list is an object, not a list. *)
Definition station_is_object : Env :=
  Example.env
    [ (Example.list_url, Example.station_doc "1" "station1" "10.0") ].

(** A service with a catalog of two parameters and one station. *)
Definition catalog_and_station : Env :=
  Example.env
    [ (BASE_URL +++ "/version/1.0.json",
       {| resource := Some [param "20" "twenty"; param "3" "three"];
          station_member := None; value := None |});
      (Example.list_url, Example.list_doc [Example.fresh "1"]);
      (Example.data_url "1", Example.station_doc "1" "station1" "10.0") ].

(** [smhi --parameters --temperatures]. *)
Definition both_options : Invocation :=
  {| argv := ["smhi"; "--parameters"; "--temperatures"];
     parse_args := Parsed {| ns_parameters := true; ns_temperatures := true |} |}.

(** A catalog whose second key is not an integer. *)
Definition bad_catalog : list Param := [param "1" "one"; param "x" "unknown"].

(** A catalog with two spellings of the key 2. *)
Definition tied_catalog : list Param :=
  [param "2" "first"; param "02" "second"; param "1" "one"].

End Scenario.

(** ** Order on floats

    [SFcompare] orders the values that are not NaN by a rank: the sign
    class first, then exponent and mantissa. *)

Module FloatOrder.

Definition rank (f : Py.float) : Z * Z * Z :=
  match f with
  | S754_nan => (0, 0, 0)
  | S754_infinity true => (-2, 0, 0)
  | S754_finite true m e => (-1, - e, Zneg m)
  | S754_zero _ => (0, 0, 0)
  | S754_finite false m e => (1, e, Zpos m)
  | S754_infinity false => (2, 0, 0)
  end.

Definition lex (x y : Z * Z * Z) : comparison :=
  let '(x1, x2, x3) := x in
  let '(y1, y2, y3) := y in
  match x1 ?= y1 with
  | Eq => match x2 ?= y2 with
          | Eq => x3 ?= y3
          | c => c
          end
  | c => c
  end.

Definition below (x y : Z * Z * Z) : Prop :=
  fst (fst x) < fst (fst y) \/
  (fst (fst x) = fst (fst y) /\
   (snd (fst x) < snd (fst y) \/
    (snd (fst x) = snd (fst y) /\ snd x < snd y))).

Definition same (x y : Z * Z * Z) : Prop :=
  fst (fst x) = fst (fst y) /\ snd (fst x) = snd (fst y) /\ snd x = snd y.

Definition number (f : Py.float) : Prop := Py.is_nan f = false.

End FloatOrder.

(** ** Properties *)

Module FloatOrderFacts.
Import FloatOrder.

Lemma compare_rank (a b : Py.float) :
  SFcompare a b =
  if Py.is_nan a || Py.is_nan b then None else Some (lex (rank a) (rank b)).
Proof.
  destruct a as [[]|[]| |[] ma ea], b as [[]|[]| |[] mb eb];
    cbn -[Z.compare Z.opp]; try reflexivity.
  rewrite Z.compare_opp, (Z.compare_antisym ea eb).
  destruct (ea ?= eb); reflexivity.
Qed.

Lemma lex_lt x y : lex x y = Lt <-> below x y.
Proof.
  destruct x as [[x1 x2] x3], y as [[y1 y2] y3]; unfold lex, below; cbn.
  destruct (Z.compare_spec x1 y1), (Z.compare_spec x2 y2), (Z.compare_spec x3 y3);
    split; intros; try discriminate; try reflexivity; lia.
Qed.

Lemma lex_eq x y : lex x y = Eq <-> same x y.
Proof.
  destruct x as [[x1 x2] x3], y as [[y1 y2] y3]; unfold lex, same; cbn.
  destruct (Z.compare_spec x1 y1), (Z.compare_spec x2 y2), (Z.compare_spec x3 y3);
    split; intros; try discriminate; try reflexivity; lia.
Qed.

Lemma lt_spec a b :
  Py.lt a b = true <-> number a /\ number b /\ below (rank a) (rank b).
Proof.
  unfold Py.lt, SFltb, number. rewrite compare_rank.
  destruct (Py.is_nan a), (Py.is_nan b); cbn; try (split; [discriminate | intuition discriminate]).
  rewrite <- lex_lt. destruct (lex (rank a) (rank b)); intuition discriminate.
Qed.

Lemma eq_spec a b :
  Py.eq a b = true <-> number a /\ number b /\ same (rank a) (rank b).
Proof.
  unfold Py.eq, SFeqb, number. rewrite compare_rank.
  destruct (Py.is_nan a), (Py.is_nan b); cbn; try (split; [discriminate | intuition discriminate]).
  rewrite <- lex_eq. destruct (lex (rank a) (rank b)); intuition discriminate.
Qed.

Lemma le_spec a b :
  Py.le a b = true <->
  number a /\ number b /\ (below (rank a) (rank b) \/ same (rank a) (rank b)).
Proof.
  unfold Py.le, SFleb, number. rewrite compare_rank.
  destruct (Py.is_nan a), (Py.is_nan b); cbn; try (split; [discriminate | intuition discriminate]).
  rewrite <- lex_lt, <- lex_eq. destruct (lex (rank a) (rank b)); intuition discriminate.
Qed.

Lemma lt_false a b :
  Py.lt a b = false <-> ~ (number a /\ number b /\ below (rank a) (rank b)).
Proof. rewrite <- lt_spec. symmetry. apply not_true_iff_false. Qed.

Lemma eq_false a b :
  Py.eq a b = false <-> ~ (number a /\ number b /\ same (rank a) (rank b)).
Proof. rewrite <- eq_spec. symmetry. apply not_true_iff_false. Qed.

(** Every comparison in context becomes a statement on ranks. *)
Ltac ranks :=
  change Py.gt with (fun a b => Py.lt b a) in *; cbv beta in *;
  repeat match goal with
  | H : Py.lt _ _ = true |- _ => apply lt_spec in H
  | H : Py.le _ _ = true |- _ => apply le_spec in H
  | H : Py.eq _ _ = true |- _ => apply eq_spec in H
  | H : Py.lt _ _ = false |- _ => apply lt_false in H
  | H : Py.eq _ _ = false |- _ => apply eq_false in H
  | |- Py.lt _ _ = true => apply lt_spec
  | |- Py.le _ _ = true => apply le_spec
  | |- Py.eq _ _ = true => apply eq_spec
  | |- Py.lt _ _ = false => apply lt_false
  | |- Py.eq _ _ = false => apply eq_false
  end;
  repeat match goal with
  | |- context [rank ?f] =>
      let a := fresh "a" in let b := fresh "b" in let c := fresh "c" in
      destruct (rank f) as [[a b] c]
  | H : context [rank ?f] |- _ =>
      let a := fresh "a" in let b := fresh "b" in let c := fresh "c" in
      destruct (rank f) as [[a b] c]
  end;
  unfold below, same, number in *; cbn [fst snd] in *.

Lemma lt_irrefl a : Py.lt a a = false.
Proof. ranks. lia. Qed.

Lemma lt_asym a b : Py.lt a b = true -> Py.lt b a = false.
Proof. intros H. ranks. lia. Qed.

Lemma lt_trans a b c : Py.lt a b = true -> Py.lt b c = true -> Py.lt a c = true.
Proof. intros H1 H2. ranks. intuition lia. Qed.

Lemma le_trans a b c : Py.le a b = true -> Py.le b c = true -> Py.le a c = true.
Proof. intros H1 H2. ranks. intuition lia. Qed.

Lemma lt_le_trans a b c : Py.lt a b = true -> Py.le b c = true -> Py.lt a c = true.
Proof. intros H1 H2. ranks. intuition lia. Qed.

Lemma le_lt_trans a b c : Py.le a b = true -> Py.lt b c = true -> Py.lt a c = true.
Proof. intros H1 H2. ranks. intuition lia. Qed.

Lemma lt_le a b : Py.lt a b = true -> Py.le a b = true.
Proof. intros H. ranks. intuition lia. Qed.

Lemma lt_number_l a b : Py.lt a b = true -> number a.
Proof. intros H. apply lt_spec in H. tauto. Qed.

Lemma lt_number_r a b : Py.lt a b = true -> number b.
Proof. intros H. apply lt_spec in H. tauto. Qed.

Lemma not_lt_le a b :
  number a -> number b -> Py.lt b a = false -> Py.le a b = true.
Proof. intros Ha Hb H. ranks. intuition lia. Qed.

Lemma trichotomy a b :
  number a -> number b -> Py.lt b a = false ->
  Py.lt a b = true \/ Py.eq a b = true.
Proof.
  intros Ha Hb H. destruct (Py.eq a b) eqn:E; [right; reflexivity | left].
  ranks. intuition lia.
Qed.

Lemma le_distinct_lt a b :
  Py.le a b = true -> Py.eq a b = false -> Py.lt a b = true.
Proof. intros H1 H2. ranks. intuition lia. Qed.

Lemma lt_not_eq a b : Py.lt a b = true -> Py.eq a b = false.
Proof. intros H. ranks. intuition lia. Qed.

Lemma eq_sym a b : Py.eq a b = Py.eq b a.
Proof.
  destruct (Py.eq b a) eqn:H; ranks; intuition lia.
Qed.

Lemma finite_number f : Py.is_finite f = true -> number f.
Proof. destruct f; intros H; try discriminate H; reflexivity. Qed.

Lemma finite_above f : Py.is_finite f = true -> Py.lt Py.neg_inf f = true.
Proof. destruct f as [[]|[]| |[] m e]; intros H; try discriminate H; reflexivity. Qed.

Lemma finite_below f : Py.is_finite f = true -> Py.lt f Py.pos_inf = true.
Proof. destruct f as [[]|[]| |[] m e]; intros H; try discriminate H; reflexivity. Qed.

End FloatOrderFacts.

(** *** Statements *)

Module Effects.

Lemma quiet_ret {A} (a : A) : quiet (ret a).
Proof. intros w. split; reflexivity. Qed.

Lemma quiet_lift {A} (r : result A) : quiet (lift r).
Proof. intros w. split; reflexivity. Qed.

Lemma quiet_logger l m a : quiet (logger l m a).
Proof. intros w. split; reflexivity. Qed.

Lemma quiet_requests_get env u : quiet (requests_get env u).
Proof. intros w. split; reflexivity. Qed.

Lemma quiet_bind {A B} (m : M A) (k : A -> M B) :
  quiet m -> (forall a, quiet (k a)) -> quiet (bind m k).
Proof.
  intros Hm Hk w. unfold bind. specialize (Hm w).
  destruct (m w) as [[a | e] w']; cbn in *.
  - destruct (Hk a w') as [H1 H2]. destruct Hm as [H3 H4].
    split; [rewrite H1 | rewrite H2]; assumption.
  - exact Hm.
Qed.

Lemma stateless_ret {A} (a : A) : stateless (ret a).
Proof. intros w. reflexivity. Qed.

Lemma stateless_lift {A} (r : result A) : stateless (lift r).
Proof. intros w. reflexivity. Qed.

Lemma stateless_logger l m a : stateless (logger l m a).
Proof. intros w. reflexivity. Qed.

Lemma stateless_requests_get env u : stateless (requests_get env u).
Proof. intros w. reflexivity. Qed.

Lemma value_of_bind {A B} (m : M A) (k : A -> M B) :
  stateless m -> (forall a, stateless (k a)) ->
  forall w, fst (bind m k w) = rbind (value_of m) (fun a => value_of (k a)).
Proof.
  intros Hm Hk w. unfold bind. specialize (Hm w).
  destruct (m w) as [[a | e] w']; cbn in *; rewrite <- Hm; cbn.
  - apply Hk.
  - reflexivity.
Qed.

Lemma stateless_bind {A B} (m : M A) (k : A -> M B) :
  stateless m -> (forall a, stateless (k a)) -> stateless (bind m k).
Proof.
  intros Hm Hk w. unfold value_of.
  rewrite !(value_of_bind m k Hm Hk). reflexivity.
Qed.

Create HintDb smhi.

#[global] Hint Resolve quiet_ret quiet_lift quiet_logger quiet_requests_get
  quiet_bind stateless_ret stateless_lift stateless_logger
  stateless_requests_get stateless_bind : smhi.

Lemma quiet_get_station_data env self s : quiet (get_station_data env self s).
Proof.
  unfold get_station_data, _make_request.
  apply quiet_bind; [auto with smhi|]. intros r.
  destruct (negb (status_code r =? 200)); [auto with smhi|].
  repeat (apply quiet_bind; [auto with smhi|]; intros ?).
  destruct (first_value a); auto 10 with smhi.
Qed.

Lemma stateless_get_station_data env self s : stateless (get_station_data env self s).
Proof.
  unfold get_station_data, _make_request.
  apply stateless_bind; [auto with smhi|]. intros r.
  destruct (negb (status_code r =? 200)); [auto with smhi|].
  repeat (apply stateless_bind; [auto with smhi|]; intros ?).
  destruct (first_value a); auto 10 with smhi.
Qed.

(** The result of [get_station_data], spelled out. *)
Lemma reading_eq env self s :
  reading env self s =
  rbind (http env (BASE_URL +++ station_data_path (st_key s) +++ suffix self)) (fun r =>
  if negb (status_code r =? 200) then Ok None
  else
    rbind (response_json r) (fun doc =>
    rbind (station_object doc) (fun so =>
    rbind (getitem "name" (so_name so)) (fun station_name =>
    match first_value doc with
    | Raise _ => Ok None
    | Ok station_temp =>
        rbind (getitem "key" (so_key so)) (fun k =>
        Ok (Some {| key := Some k; name := station_name; temp := station_temp;
                    station := Some so |}))
    end)))).
Proof.
  unfold reading, value_of, get_station_data, _make_request, requests_get, bind, lift.
  cbn.
  destruct (http env _) as [r | e]; cbn; [|reflexivity].
  destruct (negb (status_code r =? 200)); cbn; [reflexivity|].
  destruct (response_json r) as [doc | e]; cbn; [|reflexivity].
  destruct (station_object doc) as [so | e]; cbn; [|reflexivity].
  destruct (getitem "name" (so_name so)) as [n | e]; cbn; [|reflexivity].
  destruct (first_value doc) as [t | e]; cbn; [|reflexivity].
  destruct (getitem "key" (so_key so)) as [k | e]; reflexivity.
Qed.

(** [get_station_data] issues one request, for the path of the key. *)
Lemma get_station_data_requests env self s w :
  requests (snd (get_station_data env self s w)) =
  requests w ++ [BASE_URL +++ station_data_path (st_key s) +++ suffix self].
Proof.
  unfold get_station_data, _make_request, requests_get, bind.
  destruct (http env _) as [r | e]; [|reflexivity].
  destruct (negb (status_code r =? 200)); [reflexivity|].
  unfold lift. destruct (response_json r) as [doc | e]; [|reflexivity].
  destruct (station_object doc) as [so | e]; [|reflexivity].
  destruct (getitem "name" (so_name so)) as [n | e]; [|reflexivity].
  destruct (first_value doc) as [t | e]; [|reflexivity].
  destruct (getitem "key" (so_key so)) as [k | e]; reflexivity.
Qed.

Lemma get_station_data_value env self s w :
  fst (get_station_data env self s w) = reading env self s.
Proof. apply stateless_get_station_data. Qed.

End Effects.

(** *** Sorting *)

Module SortedFacts.

Section Generic.
Context {A K : Type} (leb : K -> K -> bool) (key : A -> K).
Hypothesis leb_total : forall x y, leb x y = true \/ leb y x = true.
Hypothesis leb_trans :
  forall x y z, leb x y = true -> leb y z = true -> leb x z = true.

Let ordered := ordered leb key.

Lemma insert_perm x l : Permutation (x :: l) (Py.insert leb key x l).
Proof.
  induction l as [| y l IH]; cbn.
  - apply Permutation_refl.
  - destruct (leb (key x) (key y)).
    + apply Permutation_refl.
    + eapply perm_trans; [apply perm_swap|]. apply perm_skip, IH.
Qed.

Lemma sorted_perm l : Permutation l (Py.sorted leb key l).
Proof.
  induction l as [| x l IH]; cbn.
  - apply perm_nil.
  - eapply perm_trans; [apply perm_skip, IH|]. apply insert_perm.
Qed.

Lemma insert_sorted x l :
  StronglySorted ordered l -> StronglySorted ordered (Py.insert leb key x l).
Proof.
  induction 1 as [| y l Hl IH Hy]; cbn.
  - constructor; constructor.
  - destruct (leb (key x) (key y)) eqn:Hxy.
    + constructor; [constructor; assumption|].
      constructor; [exact Hxy|].
      rewrite Forall_forall in *. intros z Hz.
      unfold ordered in *. eapply leb_trans; [exact Hxy | apply Hy, Hz].
    + constructor; [exact IH|].
      rewrite Forall_forall in *. intros z Hz.
      apply (Permutation_in _ (Permutation_sym (insert_perm x l))) in Hz.
      destruct Hz as [<- | Hz].
      * destruct (leb_total (key x) (key y)) as [H | H]; [congruence | exact H].
      * apply Hy, Hz.
Qed.

Lemma sorted_sorted l : StronglySorted ordered (Py.sorted leb key l).
Proof.
  induction l as [| x l IH]; cbn.
  - constructor.
  - apply insert_sorted, IH.
Qed.

(** The sort is stable: the elements of any one key come out in the order
    they went in. Sorted, stable and a permutation, the result is the
    one that any stable sort returns. *)
Section Stable.
Variable same_key : K -> K -> bool.
Hypothesis same_key_leb :
  forall k a b, same_key k a = true -> same_key k b = true -> leb a b = true.

Lemma insert_stable k x l :
  filter (fun a => same_key k (key a)) (Py.insert leb key x l) =
  filter (fun a => same_key k (key a)) (x :: l).
Proof.
  induction l as [| y l IH]; [reflexivity|].
  cbn [Py.insert]. destruct (leb (key x) (key y)) eqn:Hxy; [reflexivity|].
  cbn [filter] in *. rewrite IH.
  destruct (same_key k (key x)) eqn:Hx, (same_key k (key y)) eqn:Hy;
    try reflexivity.
  rewrite (same_key_leb k _ _ Hx Hy) in Hxy. discriminate.
Qed.

Lemma sorted_stable k l :
  filter (fun a => same_key k (key a)) (Py.sorted leb key l) =
  filter (fun a => same_key k (key a)) l.
Proof.
  induction l as [| x l IH]; [reflexivity|].
  change (Py.sorted leb key (x :: l)) with (Py.insert leb key x (Py.sorted leb key l)).
  rewrite insert_stable. cbn [filter]. rewrite IH. reflexivity.
Qed.
End Stable.

(** In a sorted list, what stands before an element precedes it. *)
Lemma sorted_before l1 x l2 :
  StronglySorted ordered (l1 ++ x :: l2) ->
  forall y, In y l1 -> ordered y x.
Proof.
  induction l1 as [| z l1 IH]; cbn; intros Hs y Hy; [contradiction|].
  apply StronglySorted_inv in Hs. destruct Hs as [Hs Hz].
  destruct Hy as [<- | Hy].
  - rewrite Forall_forall in Hz. apply Hz, in_elt.
  - apply IH; assumption.
Qed.
End Generic.

(** The byte order of strings is transitive. *)
Lemma compare_trans (c : comparison) s1 :
  forall s2 s3, String.compare s1 s2 = c -> String.compare s2 s3 = c ->
  String.compare s1 s3 = c.
Proof.
  induction s1 as [| a1 s1 IH]; intros [| a2 s2] [| a3 s3]; cbn;
    try congruence.
  unfold Ascii.compare.
  destruct (N.compare_spec (N_of_ascii a1) (N_of_ascii a2)) as [E12 | L12 | G12],
           (N.compare_spec (N_of_ascii a2) (N_of_ascii a3)) as [E23 | L23 | G23];
    intros H1 H2; try congruence.
  - rewrite E12, E23, N.compare_refl. eauto.
  - rewrite E12. apply N.compare_lt_iff in L23. rewrite L23. exact H2.
  - rewrite E12. apply N.compare_gt_iff in G23. rewrite G23. exact H2.
  - rewrite <- E23. apply N.compare_lt_iff in L12. rewrite L12. exact H1.
  - assert (L : (N_of_ascii a1 < N_of_ascii a3)%N) by (eapply N.lt_trans; eassumption).
    apply N.compare_lt_iff in L. rewrite L. exact H1.
  - rewrite <- E23. apply N.compare_gt_iff in G12. rewrite G12. exact H1.
  - assert (L : (N_of_ascii a3 < N_of_ascii a1)%N) by (eapply N.lt_trans; eassumption).
    apply N.compare_gt_iff in L. rewrite L. exact H1.
Qed.

Lemma string_leb_trans x y z :
  String.leb x y = true -> String.leb y z = true -> String.leb x z = true.
Proof.
  unfold String.leb. intros Hxy Hyz.
  destruct (String.compare x y) eqn:Exy; try discriminate;
    destruct (String.compare y z) eqn:Eyz; try discriminate.
  - rewrite (compare_trans Eq x y z Exy Eyz). reflexivity.
  - apply String.compare_eq_iff in Exy. subst. rewrite Eyz. reflexivity.
  - apply String.compare_eq_iff in Eyz. subst. rewrite Exy. reflexivity.
  - rewrite (compare_trans Lt x y z Exy Eyz). reflexivity.
Qed.

Lemma sorted_weaken {A} (R1 R2 : A -> A -> Prop) l :
  (forall a b, R1 a b -> R2 a b) -> StronglySorted R1 l -> StronglySorted R2 l.
Proof.
  intros H. induction 1 as [| x l Hl IH Hx]; constructor; [exact IH|].
  eapply Forall_impl; [|exact Hx]. intros b. apply H.
Qed.

Lemma Z_leb_total x y : (x <=? y) = true \/ (y <=? x) = true.
Proof. destruct (Z.leb_spec x y); [left; reflexivity | right; apply Z.leb_le; lia]. Qed.

Lemma Z_leb_trans x y z :
  (x <=? y) = true -> (y <=? z) = true -> (x <=? z) = true.
Proof. rewrite !Z.leb_le. lia. Qed.

End SortedFacts.

(** *** The scan and the run *)

Module ScanFacts.
Import Effects.

Lemma quiet_scan_station env self now acc s : quiet (scan_station env self now acc s).
Proof.
  unfold scan_station.
  apply quiet_bind; [auto with smhi|]. intros updated.
  destruct (too_old now updated).
  - auto 10 with smhi.
  - apply quiet_bind; [apply quiet_get_station_data|].
    intros [r |]; auto with smhi.
Qed.

Lemma scan_station_value env self now acc s w :
  fst (scan_station env self now acc s w) =
  rbind (visit env self now s) (fun o =>
  Ok (match o with Some r => update acc r | None => acc end)).
Proof.
  unfold scan_station, visit, bind, lift.
  destruct (Datetime.fromtimestamp (st_updated s / 1000)) as [updated | e];
    cbn -[get_station_data reading]; [|reflexivity].
  destruct (too_old now updated).
  - destruct (getitem "name" (st_name s)); reflexivity.
  - rewrite <- (get_station_data_value env self s w).
    destruct (get_station_data env self s w) as [[[r |] | e] w']; reflexivity.
Qed.

Lemma for_each_value env self now l :
  forall acc w,
    fst (for_each l (scan_station env self now) acc w) = scan env self now l acc.
Proof.
  induction l as [| s l IH]; intros acc w; cbn; [reflexivity|].
  unfold bind. pose proof (scan_station_value env self now acc s w) as H.
  destruct (scan_station env self now acc s w) as [[acc' | e] w']; cbn in H.
  - rewrite IH. destruct (visit env self now s) as [o | e]; cbn in *; congruence.
  - destruct (visit env self now s) as [o | e']; cbn in *; congruence.
Qed.

Lemma quiet_for_each env self now l :
  forall acc, quiet (for_each l (scan_station env self now) acc).
Proof.
  induction l as [| s l IH]; intros acc; cbn.
  - apply quiet_ret.
  - apply quiet_bind; [apply quiet_scan_station | intros; apply IH].
Qed.

(** When no iteration raises, the scan folds [update] over the readings. *)
Lemma scan_readings env self now l :
  Forall (completes env self now) l ->
  forall acc, scan env self now l acc = Ok (fold_left update (readings env self now l) acc).
Proof.
  induction 1 as [| s l [o Ho] Hl IH]; intros acc; cbn; [reflexivity|].
  rewrite Ho. cbn. rewrite IH, fold_left_app. destruct o; reflexivity.
Qed.

(** A run returns and prints what [extrema] and [report] say. *)
Lemma run_spec env self w :
  let now := clock env (clock_reads w) in
  fst (temperatures_parameter_2 env self w) =
    rbind (extrema env self now) (fun _ => Ok tt) /\
  prints (temperatures_parameter_2 env self) w
    (match extrema env self now with Ok acc => report acc | Raise _ => [] end).
Proof.
  unfold prints, temperatures_parameter_2, extrema, _make_request, requests_get,
    datetime_now, bind, lift. cbn.
  destruct (http env _) as [r | e]; cbn; [|rewrite app_nil_r; split; reflexivity].
  destruct (response_json r) as [doc | e]; cbn; [|rewrite app_nil_r; split; reflexivity].
  destruct (getitem "station" (station_member doc)) as [m | e]; cbn;
    [|rewrite app_nil_r; split; reflexivity].
  destruct (sorted_stations m) as [l | e]; cbn; [|rewrite app_nil_r; split; reflexivity].
  match goal with
  | |- context [for_each l ?b ?a ?w0] =>
      pose proof (for_each_value env self (clock env (clock_reads w)) l a w0) as Hv;
      destruct (quiet_for_each env self (clock env (clock_reads w)) l a w0) as [Hq _];
      destruct (for_each l b a w0) as [[[mn mx] | e] w'] eqn:E
  end; cbn in Hv, Hq; rewrite <- Hv; cbn.
  - rewrite Hq, <- app_assoc. split; reflexivity.
  - rewrite Hq, app_nil_r. split; reflexivity.
Qed.


(** For a fetched list, [extrema] is the scan of the sorted list. *)
Lemma extrema_fetched env self now l :
  fetches env self l ->
  extrema env self now =
  scan env self now (Py.sorted String.leb st_key l) (min_placeholder, max_placeholder).
Proof.
  intros (r & doc & Hr & Hd & Hm). unfold extrema, response_json.
  rewrite Hr. cbn. rewrite Hd. cbn. rewrite Hm. reflexivity.
Qed.

End ScanFacts.

(** *** The two accumulators *)

Module ExtremaFacts.
Import FloatOrder FloatOrderFacts.

Lemma best_cons better x l m :
  best better (x :: l) m = best better l (keep better m x).
Proof. reflexivity. Qed.

Section Best.
Variable better : Py.float -> Py.float -> bool.
Hypothesis better_irrefl : forall a, better a a = false.
Hypothesis better_number : forall a b, better a b = true -> number a.
Hypothesis better_total :
  forall a b, number a -> number b -> better a b = false ->
              better b a = true \/ Py.eq a b = true.

(** The accumulator is the initial one or one of the stations seen. *)
Lemma best_in l : forall m, best better l m = m \/ In (best better l m) l.
Proof.
  induction l as [| x l IH]; intros m; [left; reflexivity|].
  rewrite best_cons.
  destruct (IH (keep better m x)) as [H | H]; [|right; right; exact H].
  rewrite H. unfold keep. destruct (better (temp x) (temp m)); cbn; auto.
Qed.

(** Stations that do not compare better leave it as it is. *)
Lemma best_stays l m :
  (forall x, In x l -> better (temp x) (temp m) = false) ->
  best better l m = m.
Proof.
  induction l as [| x l IH]; intros H; [reflexivity|].
  rewrite best_cons. unfold keep. rewrite (H x (or_introl eq_refl)). apply IH.
  intros y Hy. apply H. right. exact Hy.
Qed.

(** A station that nothing later beats, and that nothing earlier equals
    or beats unless it is the same record, is the one left. *)
Lemma best_first l1 r l2 :
  number (temp r) ->
  (forall x, In x l1 ->
     better (temp x) (temp r) = false /\
     (Py.eq (temp x) (temp r) = true -> x = r)) ->
  (forall x, In x l2 -> better (temp x) (temp r) = false) ->
  forall m, number (temp m) ->
            m = r \/ better (temp r) (temp m) = true ->
            best better (l1 ++ r :: l2) m = r.
Proof.
  intros Hr H1 H2. induction l1 as [| x l1 IH]; intros m Hm Hmr.
  - change ([] ++ r :: l2) with (r :: l2). rewrite best_cons. unfold keep.
    destruct Hmr as [-> | Hmr].
    + rewrite better_irrefl. apply best_stays, H2.
    + rewrite Hmr. apply best_stays, H2.
  - change ((x :: l1) ++ r :: l2) with (x :: (l1 ++ r :: l2)).
    rewrite best_cons. apply IH.
    + intros y Hy. apply H1. right. exact Hy.
    + unfold keep. destruct (better (temp x) (temp m)) eqn:E; [|exact Hm].
      eapply better_number, E.
    + unfold keep. destruct (better (temp x) (temp m)) eqn:E; [|exact Hmr].
      destruct (H1 x (or_introl eq_refl)) as [Hx Hxe].
      destruct (better_total (temp x) (temp r)
                  (better_number _ _ E) Hr Hx) as [H | H]; auto.
Qed.
End Best.

Lemma gt_irrefl a : Py.gt a a = false.
Proof. apply lt_irrefl. Qed.

Lemma gt_number a b : Py.gt a b = true -> number a.
Proof. apply lt_number_r. Qed.

Lemma gt_total a b :
  number a -> number b -> Py.gt a b = false -> Py.gt b a = true \/ Py.eq a b = true.
Proof. intros Ha Hb H. apply trichotomy; assumption. Qed.

Lemma lt_total a b :
  number a -> number b -> Py.lt a b = false -> Py.lt b a = true \/ Py.eq a b = true.
Proof.
  intros Ha Hb H. rewrite eq_sym. apply trichotomy; assumption.
Qed.

(** [update] runs the two accumulators side by side. *)
Lemma fold_update l :
  forall acc, fold_left update l acc =
              (best Py.lt l (fst acc), best Py.gt l (snd acc)).
Proof.
  induction l as [| x l IH]; intros [mn mx]; [reflexivity|].
  cbn [fold_left]. rewrite IH, !best_cons. reflexivity.
Qed.

Lemma le_refl a : number a -> Py.le a a = true.
Proof. intros H. apply not_lt_le; auto using lt_irrefl. Qed.

(** The highest accumulator bounds every number seen from above. *)
Lemma best_gt_bound l :
  forall m, number (temp m) ->
    number (temp (best Py.gt l m)) /\
    Py.le (temp m) (temp (best Py.gt l m)) = true /\
    forall x, In x l -> number (temp x) ->
              Py.le (temp x) (temp (best Py.gt l m)) = true.
Proof.
  induction l as [| x l IH]; intros m Hm.
  - split; [exact Hm|]. split; [apply le_refl, Hm | contradiction].
  - rewrite best_cons. unfold keep. destruct (Py.gt (temp x) (temp m)) eqn:E.
    + destruct (IH x (gt_number _ _ E)) as (H1 & H2 & H3).
      split; [exact H1|]. split.
      * eapply le_trans; [apply lt_le, E | exact H2].
      * intros y [<- | Hy] Hn; auto.
    + destruct (IH m Hm) as (H1 & H2 & H3).
      split; [exact H1|]. split; [exact H2|].
      intros y [<- | Hy] Hn; auto.
      eapply le_trans; [|exact H2]. apply not_lt_le; assumption.
Qed.

(** The lowest accumulator bounds every number seen from below. *)
Lemma best_lt_bound l :
  forall m, number (temp m) ->
    number (temp (best Py.lt l m)) /\
    Py.le (temp (best Py.lt l m)) (temp m) = true /\
    forall x, In x l -> number (temp x) ->
              Py.le (temp (best Py.lt l m)) (temp x) = true.
Proof.
  induction l as [| x l IH]; intros m Hm.
  - split; [exact Hm|]. split; [apply le_refl, Hm | contradiction].
  - rewrite best_cons. unfold keep. destruct (Py.lt (temp x) (temp m)) eqn:E.
    + destruct (IH x (lt_number_l _ _ E)) as (H1 & H2 & H3).
      split; [exact H1|]. split.
      * eapply le_trans; [exact H2 | apply lt_le, E].
      * intros y [<- | Hy] Hn; auto.
    + destruct (IH m Hm) as (H1 & H2 & H3).
      split; [exact H1|]. split; [exact H2|].
      intros y [<- | Hy] Hn; auto.
      eapply le_trans; [exact H2|]. apply not_lt_le; assumption.
Qed.

End ExtremaFacts.

(** *** [get_station_data] *)

Module StationData.
Import Effects.

Lemma first_value_ok doc t : first_value doc = Ok t <-> parses doc t.
Proof.
  unfold first_value, parses. split.
  - destruct (value doc) as [[| o rest] |]; cbn; try discriminate.
    destruct (o_value o) as [v |] eqn:Ev; cbn; try discriminate.
    intros H. exists o, rest, v. auto.
  - intros (o & rest & v & -> & Ev & Hv). cbn. rewrite Ev. exact Hv.
Qed.

Lemma first_value_raise doc :
  (~ exists t, parses doc t) -> exists e, first_value doc = Raise e.
Proof.
  intros H. destruct (first_value doc) as [t | e] eqn:E; [|eauto].
  exfalso. apply H. exists t. apply first_value_ok, E.
Qed.

(** C4, amended. For a station argument whose request is answered: with
    a status other than 200 [get_station_data] logs at debug level and
    returns absence; with status 200 and a decoded body whose [station]
    object has a [name], it logs a warning that names the station and
    returns absence unless [value] is present and non-empty and
    [value[0].value] is accepted by [float]; when it is, and the
    [station] object has a [key], it returns a reading with the float
    accepted, finite or not. *)
Theorem get_station_data_outcomes env self s w r :
  let u := BASE_URL +++ station_data_path (st_key s) +++ suffix self in
  http env u = Ok r ->
  (status_code r <> 200 ->
   get_station_data env self s w =
   (Ok None,
    logged {| lvl := DEBUG; msg := "URL %s returned status code %s";
              args := [AStr (url r); AInt (status_code r)] |} (requested u w))) /\
  (forall doc so n,
     status_code r = 200 -> json r = Some doc ->
     station_member doc = Some (StationObj so) ->
     so_name so = Some n ->
     (forall t k, parses doc t -> so_key so = Some k ->
        let sd := {| key := Some k; name := n; temp := t; station := Some so |} in
        get_station_data env self s w =
        (Ok (Some sd),
         logged {| lvl := INFO; msg := "station %s"; args := [AStationTemp sd] |}
                (requested u w))) /\
     ((~ exists t, parses doc t) ->
        get_station_data env self s w =
        (Ok None,
         logged {| lvl := WARNING; msg := "Can't get temperature for station %s";
                   args := [AStr n] |} (requested u w)))).
Proof.
  intros u Hr. split.
  - intros Hs. apply Z.eqb_neq in Hs.
    unfold get_station_data, _make_request, requests_get, bind.
    fold u. rewrite Hr, Hs. reflexivity.
  - intros doc so n Hs Hd Hm Hn.
    assert (E :
      get_station_data env self s w =
      match first_value doc with
      | Raise _ =>
          (Ok None,
           logged {| lvl := WARNING; msg := "Can't get temperature for station %s";
                     args := [AStr n] |} (requested u w))
      | Ok t =>
          bind (lift (getitem "key" (so_key so))) (fun k =>
            let sd := {| key := Some k; name := n; temp := t; station := Some so |} in
            bind (logger INFO "station %s" [AStationTemp sd]) (fun _ =>
            ret (Some sd))) (requested u w)
      end).
    { apply Z.eqb_eq in Hs.
      unfold get_station_data, _make_request, requests_get, bind at 1 2 3 4,
        lift at 1 2 3, response_json, station_object.
      fold u. rewrite Hr, Hs, Hd, Hm. cbn [negb rbind getitem].
      rewrite Hn. destruct (first_value doc); reflexivity. }
    split.
    + intros t k Ht Hk. apply first_value_ok in Ht. rewrite E, Ht.
      unfold bind, lift. rewrite Hk. reflexivity.
    + intros Hno. destruct (first_value_raise doc Hno) as [e He].
      rewrite E, He. reflexivity.
Qed.

Lemma get_station_data_outcomes_witness :
  get_station_data (Example.one_station "10.0") default_parser (Example.fresh "1")
    initial_world
  = (Ok (Some Example.station1_at_10),
     logged {| lvl := INFO; msg := "station %s";
               args := [AStationTemp Example.station1_at_10] |}
            (requested (Example.data_url "1") initial_world)).
Proof.
  apply (proj1 (proj2 (get_station_data_outcomes
            (Example.one_station "10.0") default_parser (Example.fresh "1")
            initial_world _ eq_refl) _ _ "station1" eq_refl eq_refl eq_refl
            eq_refl)).
  - exists {| o_value := Some "10.0" |}, [], "10.0".
    repeat split; reflexivity.
  - reflexivity.
Defined.

(** C4 as stated fails: the temperature ["inf"] is accepted by [float],
    and the reading returned is infinite, not finite. *)
Lemma get_station_data_infinite_reading :
  exists sd,
    fst (get_station_data (Example.one_station "inf") default_parser
           (Example.fresh "1") initial_world) = Ok (Some sd) /\
    temp sd = Py.pos_inf /\
    Py.is_finite (temp sd) = false.
Proof.
  eexists. split; [vm_compute; reflexivity|]. split; reflexivity.
Qed.

(** C10. A reading that [get_station_data] returns has its [key], [name]
    and [station] from the [station] object of the response with status
    200; of the station argument only [key] is used, to build the request
    path; and the identity in the reading can differ from the argument. *)
Theorem reading_identity_from_response :
  (forall env self s w sd,
     fst (get_station_data env self s w) = Ok (Some sd) ->
     exists r doc so,
       http env (BASE_URL +++ station_data_path (st_key s) +++ suffix self) = Ok r /\
       status_code r = 200 /\
       json r = Some doc /\
       station_member doc = Some (StationObj so) /\
       key sd = so_key so /\
       Some (name sd) = so_name so /\
       station sd = Some so) /\
  (forall env self s s' w,
     st_key s = st_key s' ->
     get_station_data env self s w = get_station_data env self s' w /\
     requests (snd (get_station_data env self s w)) =
       requests w ++ [BASE_URL +++ station_data_path (st_key s) +++ suffix self]) /\
  (exists env self s w sd,
     fst (get_station_data env self s w) = Ok (Some sd) /\
     key sd <> Some (st_key s) /\
     Some (name sd) <> st_name s).
Proof.
  split; [|split].
  - intros env self s w sd H. rewrite get_station_data_value, reading_eq in H.
    destruct (http env _) as [r | e] eqn:Hr; cbn in H; [|discriminate].
    destruct (status_code r =? 200) eqn:Hs; cbn in H; [|discriminate].
    apply Z.eqb_eq in Hs. unfold response_json, station_object in H.
    destruct (json r) as [doc |] eqn:Hd; cbn in H; [|discriminate].
    destruct (station_member doc) as [[l | so] |] eqn:Hm; cbn in H; try discriminate.
    destruct (so_name so) as [n |] eqn:Hn; cbn in H; [|discriminate].
    destruct (first_value doc) as [t | e]; [|discriminate].
    destruct (so_key so) as [k |] eqn:Hk; cbn in H; [|discriminate].
    injection H as <-. exists r, doc, so. cbn. auto 10.
  - intros env self s s' w Hk. split.
    + unfold get_station_data. rewrite Hk. reflexivity.
    + apply get_station_data_requests.
  - exists Example.mismatch, default_parser, (Example.fresh "1"), initial_world.
    eexists. split; [vm_compute; reflexivity|]. split; discriminate.
Qed.

Lemma reading_identity_from_response_witness :
  exists r doc so,
    http Example.mismatch (Example.data_url "1") = Ok r /\
    status_code r = 200 /\
    json r = Some doc /\
    station_member doc = Some (StationObj so) /\
    Some "7" = so_key so /\
    Some "station7" = so_name so.
Proof.
  destruct (proj1 reading_identity_from_response Example.mismatch default_parser
              (Example.fresh "1") initial_world
              {| key := Some "7"; name := "station7";
                 temp := S754_finite false 7881299347898368 (-51);
                 station := Some {| so_key := Some "7"; so_name := Some "station7";
                                    so_rest := [] |} |} eq_refl)
    as (r & doc & so & H1 & H2 & H3 & H4 & H5 & H6 & H7).
  exists r, doc, so. auto 10.
Defined.

End StationData.

(** *** [temperatures_parameter_2] *)

Module Temperatures.
Import FloatOrder FloatOrderFacts Effects ScanFacts ExtremaFacts.

Lemma readings_in env self now l r :
  In r (readings env self now l) <->
  exists s, In s l /\ visit env self now s = Ok (Some r).
Proof.
  unfold readings. rewrite in_flat_map. split; intros (s & Hs & H); exists s.
  - split; [exact Hs|].
    destruct (visit env self now s) as [[r' |] | e]; cbn in H; try contradiction.
    destruct H as [-> | []]. reflexivity.
  - split; [exact Hs|]. rewrite H. left. reflexivity.
Qed.

Lemma readings_perm env self now l l' :
  Permutation l l' ->
  Permutation (readings env self now l) (readings env self now l').
Proof. apply Permutation_flat_map. Qed.

Lemma readings_sorted env self now l :
  Permutation (readings env self now l)
              (readings env self now (Py.sorted String.leb st_key l)).
Proof. apply readings_perm, SortedFacts.sorted_perm. Qed.

Lemma visit_reading env self now s r :
  visit env self now s = Ok (Some r) -> reading env self s = Ok (Some r).
Proof.
  unfold visit.
  destruct (Datetime.fromtimestamp (st_updated s / 1000)) as [u | e]; cbn;
    [|discriminate].
  destruct (too_old now u); [|auto].
  destruct (getitem "name" (st_name s)); discriminate.
Qed.

Lemma reading_same_key env self s s' :
  st_key s = st_key s' -> reading env self s = reading env self s'.
Proof. intros H. rewrite !reading_eq, H. reflexivity. Qed.

Lemma reading_has_key env self s r :
  reading env self s = Ok (Some r) -> key r <> None.
Proof.
  rewrite reading_eq.
  destruct (http env _) as [resp | e]; cbn; [|discriminate].
  destruct (negb (status_code resp =? 200)); [discriminate|].
  destruct (response_json resp) as [doc | e]; cbn; [|discriminate].
  destruct (station_object doc) as [so | e]; cbn; [|discriminate].
  destruct (getitem "name" (so_name so)) as [n | e]; cbn; [|discriminate].
  destruct (first_value doc) as [t | e]; [|discriminate].
  destruct (getitem "key" (so_key so)) as [k | e]; cbn; [|discriminate].
  intros H. injection H as <-. discriminate.
Qed.

(** A run over a fetched list none of whose iterations raises. *)
Lemma run_completes env self w l :
  let now := clock env (clock_reads w) in
  fetches env self l ->
  Forall (completes env self now) l ->
  fst (temperatures_parameter_2 env self w) = Ok tt /\
  prints (temperatures_parameter_2 env self) w
    (report (fold_left update
               (readings env self now (Py.sorted String.leb st_key l))
               (min_placeholder, max_placeholder))).
Proof.
  intros now Hf Hc.
  destruct (run_spec env self w) as [Hv Hp]. fold now in Hv, Hp.
  rewrite (extrema_fetched env self now l Hf) in Hv, Hp.
  assert (Hs : Forall (completes env self now) (Py.sorted String.leb st_key l))
    by (eapply Permutation_Forall; [apply SortedFacts.sorted_perm | exact Hc]).
  rewrite (scan_readings env self now _ Hs) in Hv, Hp.
  split; assumption.
Qed.

Lemma distinct_split L :
  distinct_temps L ->
  forall l1 x l2, L = l1 ++ x :: l2 ->
  forall y, In y (l1 ++ l2) -> Py.eq (temp y) (temp x) = false.
Proof.
  induction 1 as [| a l Ha Hl IH]; intros l1 x l2 E y Hy.
  - destruct l1; discriminate.
  - destruct l1 as [| b l1]; cbn in E; injection E as -> ->.
    + rewrite eq_sym. rewrite Forall_forall in Ha. apply Ha, Hy.
    + destruct Hy as [<- | Hy].
      * rewrite Forall_forall in Ha. apply Ha, in_elt.
      * eapply IH; [reflexivity | exact Hy].
Qed.

Lemma distinct_perm_split L l1 x l2 :
  distinct_temps L -> Permutation L (l1 ++ x :: l2) ->
  forall y, In y (l1 ++ l2) -> Py.eq (temp y) (temp x) = false.
Proof.
  intros Hd Hp y Hy.
  assert (Hx : In x L) by (eapply Permutation_in; [symmetry; exact Hp | apply in_elt]).
  destruct (in_split _ _ Hx) as (m1 & m2 & ->).
  apply Permutation_app_inv in Hp.
  eapply distinct_split; [exact Hd | reflexivity |].
  eapply Permutation_in; [symmetry; exact Hp | exact Hy].
Qed.

Lemma round_half_even_nonneg n d : 0 <= n -> 0 < d -> 0 <= Py.round_half_even n d.
Proof.
  intros Hn Hd. unfold Py.round_half_even.
  assert (0 <= n / d) by (apply Z.div_pos; lia).
  destruct (2 * (n mod d) ?= d); [destruct (Z.even (n / d))| |]; lia.
Qed.

Lemma format_1f_finite f :
  Py.is_finite f = true -> one_fractional_digit (Py.format_1f f).
Proof.
  destruct f as [s | s | | s m e]; intros H; try discriminate H.
  - exists (if s then "-" else ""), 0, 0.
    split; [destruct s; auto|].
    split; [lia|]. split; [lia|]. destruct s; reflexivity.
  - cbn [Py.format_1f].
    set (tenths := if 0 <=? e then 10 * Z.pos m * 2 ^ e
                   else Py.round_half_even (10 * Z.pos m) (2 ^ (- e))).
    assert (Ht : 0 <= tenths).
    { unfold tenths. destruct (Z.leb_spec 0 e).
      - assert (0 <= 2 ^ e) by (apply Z.pow_nonneg; lia). nia.
      - apply round_half_even_nonneg; [lia | apply Z.pow_pos_nonneg; lia]. }
    exists (if s then "-" else ""), (tenths / 10), (tenths mod 10).
    split; [destruct s; auto|].
    split; [apply Z.div_pos; lia|].
    split; [pose proof (Z.mod_pos_bound tenths 10); lia | reflexivity].
Qed.

Lemma best_gt_greatest L L' hi :
  Permutation L L' ->
  Forall (fun r => Py.is_finite (temp r) = true) L ->
  distinct_temps L -> greatest hi L ->
  best Py.gt L' max_placeholder = hi.
Proof.
  intros Hp Hfin Hd [Hin Hmax]. rewrite Forall_forall in Hfin.
  assert (Hin' : In hi L') by (eapply Permutation_in; eassumption).
  destruct (in_split _ _ Hin') as (l1 & l2 & ->).
  assert (Hlt : forall x, In x (l1 ++ l2) -> Py.lt (temp x) (temp hi) = true).
  { intros x Hx. apply le_distinct_lt.
    - apply Hmax. eapply Permutation_in; [symmetry; exact Hp|].
      apply in_app_iff in Hx. apply in_app_iff. cbn. tauto.
    - eapply distinct_perm_split; eassumption. }
  apply (best_first Py.gt gt_irrefl gt_number gt_total l1 hi l2).
  - apply finite_number, Hfin, Hin.
  - intros x Hx.
    assert (H : Py.lt (temp x) (temp hi) = true) by (apply Hlt, in_app_iff; tauto).
    split; [apply lt_asym, H|].
    intros E. rewrite (lt_not_eq _ _ H) in E. discriminate.
  - intros x Hx. apply lt_asym, Hlt, in_app_iff; tauto.
  - reflexivity.
  - right. apply finite_above, Hfin, Hin.
Qed.

Lemma best_lt_least L L' lo :
  Permutation L L' ->
  Forall (fun r => Py.is_finite (temp r) = true) L ->
  distinct_temps L -> least lo L ->
  best Py.lt L' min_placeholder = lo.
Proof.
  intros Hp Hfin Hd [Hin Hmin]. rewrite Forall_forall in Hfin.
  assert (Hin' : In lo L') by (eapply Permutation_in; eassumption).
  destruct (in_split _ _ Hin') as (l1 & l2 & ->).
  assert (Hlt : forall x, In x (l1 ++ l2) -> Py.lt (temp lo) (temp x) = true).
  { intros x Hx. apply le_distinct_lt.
    - apply Hmin. eapply Permutation_in; [symmetry; exact Hp|].
      apply in_app_iff in Hx. apply in_app_iff. cbn. tauto.
    - rewrite eq_sym. eapply distinct_perm_split; eassumption. }
  apply (best_first Py.lt lt_irrefl lt_number_l lt_total l1 lo l2).
  - apply finite_number, Hfin, Hin.
  - intros x Hx.
    assert (H : Py.lt (temp lo) (temp x) = true) by (apply Hlt, in_app_iff; tauto).
    split; [apply lt_asym, H|].
    intros E. rewrite eq_sym, (lt_not_eq _ _ H) in E. discriminate.
  - intros x Hx. apply lt_asym, Hlt, in_app_iff; tauto.
  - reflexivity.
  - right. apply finite_below, Hfin, Hin.
Qed.

(** C1, amended. Over a fetched list whose iterations complete and whose
    eligible stations have distinct finite temperatures, in whatever
    order the list arrives, the run prints the reading with the greatest
    temperature on the "Highest" line and the one with the smallest on
    the "Lowest" line, each temperature with one fractional digit; for
    the stations "3", "1", "2" at 10.0, 12.0, 11.0 the lines are those of
    station1 at 12.0 and station3 at 10.0. Which readings are the
    greatest and the smallest does not depend on the order of the list. *)
Theorem extremes_of_distinct_finite_temperatures :
  (forall env self w l hi lo,
     let now := clock env (clock_reads w) in
     let L := readings env self now l in
     fetches env self l ->
     Forall (completes env self now) l ->
     Forall (fun r => Py.is_finite (temp r) = true) L ->
     distinct_temps L ->
     greatest hi L ->
     least lo L ->
     fst (temperatures_parameter_2 env self w) = Ok tt /\
     prints (temperatures_parameter_2 env self) w
       [highest_line hi; lowest_line lo] /\
     one_fractional_digit (Py.format_1f (temp hi)) /\
     one_fractional_digit (Py.format_1f (temp lo))) /\
  fst (temperatures_parameter_2 Example.three_stations default_parser initial_world)
    = Ok tt /\
  stdout (snd (temperatures_parameter_2 Example.three_stations default_parser
                 initial_world))
    = Example.expected_lines /\
  (forall env self now l l' hi lo,
     Permutation l l' ->
     greatest hi (readings env self now l) ->
     least lo (readings env self now l) ->
     greatest hi (readings env self now l') /\
     least lo (readings env self now l')).
Proof.
  split; [|split; [vm_compute; reflexivity|split; [vm_compute; reflexivity|]]].
  2: { intros env self now l l' hi lo Hp [Hi1 Hm1] [Hi2 Hm2].
       pose proof (readings_perm env self now l l' Hp) as HP.
       pose proof (Permutation_sym HP) as HP'.
       split; (split; [eapply Permutation_in; eassumption|]);
         intros x Hx; [apply Hm1 | apply Hm2];
         eapply Permutation_in; eassumption. }
  intros env self w l hi lo now L Hf Hc Hfin Hd Hhi Hlo.
  destruct (run_completes env self w l Hf Hc) as [Hv Hp]. fold now in Hp.
  rewrite fold_update in Hp. unfold report in Hp. cbn [fst snd] in Hp.
  rewrite (best_gt_greatest L _ hi (readings_sorted env self now l) Hfin Hd Hhi) in Hp.
  rewrite (best_lt_least L _ lo (readings_sorted env self now l) Hfin Hd Hlo) in Hp.
  rewrite Forall_forall in Hfin.
  repeat split; try assumption; apply format_1f_finite, Hfin.
  - apply Hhi.
  - apply Hlo.
Qed.

Lemma extremes_of_distinct_finite_temperatures_witness :
  prints (temperatures_parameter_2 Example.three_stations default_parser)
    initial_world Example.expected_lines.
Proof.
  refine (proj1 (proj2 (proj1 extremes_of_distinct_finite_temperatures
    Example.three_stations default_parser initial_world
    [Example.fresh "3"; Example.fresh "1"; Example.fresh "2"]
    {| key := Some "1"; name := "station1";
       temp := S754_finite false 6755399441055744 (-49);
       station := Some {| so_key := Some "1"; so_name := Some "station1";
                          so_rest := [] |} |}
    {| key := Some "3"; name := "station3";
       temp := S754_finite false 5629499534213120 (-49);
       station := Some {| so_key := Some "3"; so_name := Some "station3";
                          so_rest := [] |} |}
    _ _ _ _ _ _))).
  - eexists. eexists. repeat split; reflexivity.
  - repeat constructor; eexists; vm_compute; reflexivity.
  - vm_compute. repeat constructor.
  - vm_compute. repeat constructor.
  - split; [vm_compute; tauto|]. intros x Hx. vm_compute in Hx.
    destruct Hx as [<- | [<- | [<- | []]]]; reflexivity.
  - split; [vm_compute; tauto|]. intros x Hx. vm_compute in Hx.
    destruct Hx as [<- | [<- | [<- | []]]]; reflexivity.
Defined.

(** C1 as stated fails: a single eligible station whose temperature is
    ["-inf"] has the greatest temperature of the run, and the "Highest"
    line shows the placeholder instead. *)
Lemma lone_station_not_highest :
  exists r,
    readings (Example.one_station "-inf") default_parser Example.now
      [Example.fresh "1"] = [r] /\
    greatest r [r] /\
    distinct_temps [r] /\
    name r = "station1" /\
    stdout (snd (temperatures_parameter_2 (Example.one_station "-inf")
                   default_parser initial_world)) =
      [ "Highest temperature: N/A, -inf degrees";
        "Lowest temperature: station1, -inf degrees" ] /\
    ~ prints (temperatures_parameter_2 (Example.one_station "-inf") default_parser)
        initial_world [highest_line r; lowest_line r].
Proof.
  eexists. split; [vm_compute; reflexivity|].
  split; [|split; [|split; [|split]]].
  - split; [left; reflexivity|]. intros x [<- | []]. reflexivity.
  - repeat constructor.
  - reflexivity.
  - vm_compute. reflexivity.
  - vm_compute. discriminate.
Qed.

(** The readings of a list split where a station with a reading stands. *)
Lemma readings_split env self now l1 s l2 r :
  visit env self now s = Ok (Some r) ->
  readings env self now (l1 ++ s :: l2) =
  readings env self now l1 ++ r :: readings env self now l2.
Proof.
  intros H. unfold readings. rewrite flat_map_app. cbn. rewrite H. reflexivity.
Qed.

(** Among the stations of a sorted list, one that stands before [s] and
    whose key is not below that of [s] has the reading of [s]. *)
Lemma same_reading_before env self now l1 s l2 r x :
  StronglySorted (ordered String.leb st_key) (l1 ++ s :: l2) ->
  visit env self now s = Ok (Some r) ->
  In x (readings env self now l1) ->
  (forall s', In s' l1 -> visit env self now s' = Ok (Some x) ->
              String.leb (st_key s) (st_key s') = true) ->
  x = r.
Proof.
  intros Hs Hr Hx Hkey. apply readings_in in Hx. destruct Hx as (s' & Hs' & Hv).
  assert (E : st_key s' = st_key s).
  { apply String.leb_antisym.
    - apply (SortedFacts.sorted_before String.leb st_key l1 s l2 Hs s' Hs').
    - apply Hkey; assumption. }
  apply visit_reading in Hv, Hr.
  rewrite (reading_same_key env self s' s E) in Hv. congruence.
Qed.

(** C2, amended. When an eligible station reports an extreme temperature
    of the run and has the smallest key among the eligible stations that
    report exactly that temperature, its reading is the one printed for
    that extremum, provided the temperature is above minus infinity for
    the "Highest" line and below plus infinity for the "Lowest" line. *)
Theorem tie_goes_to_smallest_key env self w l s r :
  let now := clock env (clock_reads w) in
  fetches env self l ->
  Forall (completes env self now) l ->
  In s l ->
  visit env self now s = Ok (Some r) ->
  (forall s' r', In s' l -> visit env self now s' = Ok (Some r') ->
                 Py.eq (temp r') (temp r) = true ->
                 String.leb (st_key s) (st_key s') = true) ->
  (Py.lt Py.neg_inf (temp r) = true ->
   (forall r', In r' (readings env self now l) -> Py.gt (temp r') (temp r) = false) ->
   exists lo, prints (temperatures_parameter_2 env self) w [highest_line r; lo]) /\
  (Py.lt (temp r) Py.pos_inf = true ->
   (forall r', In r' (readings env self now l) -> Py.lt (temp r') (temp r) = false) ->
   exists hi, prints (temperatures_parameter_2 env self) w [hi; lowest_line r]).
Proof.
  intros now Hf Hc Hs Hr Htie.
  destruct (run_completes env self w l Hf Hc) as [_ Hp]. fold now in Hp.
  rewrite fold_update in Hp. unfold report in Hp. cbn [fst snd] in Hp.
  set (S := Py.sorted String.leb st_key l) in *.
  assert (Hperm : Permutation l S) by apply SortedFacts.sorted_perm.
  assert (Hsorted : StronglySorted (ordered String.leb st_key) S)
    by (apply SortedFacts.sorted_sorted;
        [apply String.leb_total | apply SortedFacts.string_leb_trans]).
  destruct (in_split s S (Permutation_in _ Hperm Hs)) as (S1 & S2 & HS).
  rewrite HS in Hsorted.
  assert (Hin : forall x, In x (readings env self now S1) \/
                          In x (readings env self now S2) ->
                          In x (readings env self now l)).
  { intros x Hx. eapply Permutation_in; [symmetry; apply readings_sorted|].
    fold S. rewrite HS, (readings_split _ _ _ _ _ _ _ Hr).
    apply in_app_iff. cbn. tauto. }
  assert (Hsame : forall x, In x (readings env self now S1) ->
                            Py.eq (temp x) (temp r) = true -> x = r).
  { intros x Hx E.
    apply (same_reading_before env self now S1 s S2 r x Hsorted Hr Hx).
    intros s' Hs' Hv. apply (Htie s' x); [|exact Hv | exact E].
    eapply Permutation_in; [symmetry; exact Hperm|].
    rewrite HS. apply in_app_iff. tauto. }
  rewrite HS, (readings_split _ _ _ _ _ _ _ Hr) in Hp.
  split; intros Hreal Hext.
  - eexists.
    rewrite (best_first Py.gt gt_irrefl gt_number gt_total _ r _) in Hp;
      [exact Hp | | | | | ].
    + eapply lt_number_r, Hreal.
    + intros x Hx. split; [apply Hext, Hin; tauto | apply Hsame, Hx].
    + intros x Hx. apply Hext, Hin. tauto.
    + reflexivity.
    + right. exact Hreal.
  - eexists.
    rewrite (best_first Py.lt lt_irrefl lt_number_l lt_total _ r _) in Hp;
      [exact Hp | | | | | ].
    + eapply lt_number_l, Hreal.
    + intros x Hx. split; [apply Hext, Hin; tauto | apply Hsame, Hx].
    + intros x Hx. apply Hext, Hin. tauto.
    + reflexivity.
    + right. exact Hreal.
Qed.

Lemma tie_goes_to_smallest_key_witness :
  exists lo,
    prints (temperatures_parameter_2 (Example.two_stations "5.0") default_parser)
      initial_world
      [ "Highest temperature: station1, 5.0 degrees"; lo ].
Proof.
  refine (proj1 (tie_goes_to_smallest_key (Example.two_stations "5.0")
    default_parser initial_world [Example.fresh "2"; Example.fresh "1"]
    (Example.fresh "1")
    {| key := Some "1"; name := "station1";
       temp := S754_finite false 5629499534213120 (-50);
       station := Some {| so_key := Some "1"; so_name := Some "station1";
                          so_rest := [] |} |}
    _ _ _ _ _) _ _).
  - eexists. eexists. repeat split; reflexivity.
  - repeat constructor; eexists; vm_compute; reflexivity.
  - right. left. reflexivity.
  - vm_compute. reflexivity.
  - intros s' r' [<- | [<- | []]] _ _; reflexivity.
  - reflexivity.
  - intros r' H. vm_compute in H. destruct H as [<- | [<- | []]]; reflexivity.
Defined.

(** C2 as stated fails: two eligible stations both report ["-inf"], the
    greatest temperature of the run, and the "Highest" line shows the
    placeholder, not station "1". *)
Lemma tied_at_minus_infinity_not_highest :
  exists r1 r2,
    readings (Example.two_stations "-inf") default_parser Example.now
      [Example.fresh "2"; Example.fresh "1"] = [r2; r1] /\
    name r1 = "station1" /\ name r2 = "station2" /\
    Py.eq (temp r1) (temp r2) = true /\
    Py.gt (temp r2) (temp r1) = false /\
    String.leb "1" "2" = true /\
    stdout (snd (temperatures_parameter_2 (Example.two_stations "-inf")
                   default_parser initial_world)) =
      [ "Highest temperature: N/A, -inf degrees";
        "Lowest temperature: station1, -inf degrees" ] /\
    ~ (exists lo,
         prints (temperatures_parameter_2 (Example.two_stations "-inf") default_parser)
           initial_world [highest_line r1; lo]).
Proof.
  eexists. eexists. split; [vm_compute; reflexivity|].
  repeat split; try (vm_compute; reflexivity).
  intros [lo H]. vm_compute in H. discriminate.
Qed.

Lemma finite_not_below_neg_inf f :
  Py.is_finite f = true -> Py.le f Py.neg_inf = false.
Proof. destruct f as [[]|[]| |[] m e]; intros H; try discriminate H; reflexivity. Qed.

Lemma finite_not_above_pos_inf f :
  Py.is_finite f = true -> Py.le Py.pos_inf f = false.
Proof. destruct f as [[]|[]| |[] m e]; intros H; try discriminate H; reflexivity. Qed.

(** C9, amended. When at least one eligible station yields a reading
    with a finite temperature and every iteration completes, both lines
    print readings of eligible stations, not the placeholders, and the
    temperature of the "Lowest" line is at most that of the "Highest". *)
Theorem lowest_at_most_highest env self w l :
  let now := clock env (clock_reads w) in
  fetches env self l ->
  Forall (completes env self now) l ->
  (exists r, In r (readings env self now l) /\ Py.is_finite (temp r) = true) ->
  exists hi lo,
    In hi (readings env self now l) /\ In lo (readings env self now l) /\
    key hi <> None /\ key lo <> None /\
    Py.le (temp lo) (temp hi) = true /\
    fst (temperatures_parameter_2 env self w) = Ok tt /\
    prints (temperatures_parameter_2 env self) w [highest_line hi; lowest_line lo].
Proof.
  intros now Hf Hc (r & Hr & Hfin).
  destruct (run_completes env self w l Hf Hc) as [Hv Hp]. fold now in Hp.
  rewrite fold_update in Hp. unfold report in Hp. cbn [fst snd] in Hp.
  set (L := readings env self now (Py.sorted String.leb st_key l)) in *.
  assert (Hperm : Permutation (readings env self now l) L) by apply readings_sorted.
  assert (HrL : In r L) by (eapply Permutation_in; eassumption).
  assert (Hback : forall x, In x L -> In x (readings env self now l))
    by (intros x Hx; eapply Permutation_in; [symmetry; exact Hperm | exact Hx]).
  assert (Hkey : forall x, In x L -> key x <> None).
  { intros x Hx. apply Hback, readings_in in Hx. destruct Hx as (s & _ & Hx).
    eapply reading_has_key, visit_reading, Hx. }
  destruct (best_gt_bound L max_placeholder eq_refl) as (_ & _ & Hhi).
  destruct (best_lt_bound L min_placeholder eq_refl) as (_ & _ & Hlo).
  specialize (Hhi r HrL (finite_number _ Hfin)).
  specialize (Hlo r HrL (finite_number _ Hfin)).
  assert (Hin_hi : In (best Py.gt L max_placeholder) L).
  { destruct (best_in Py.gt L max_placeholder) as [E | H]; [|exact H].
    rewrite E in Hhi. cbn in Hhi.
    rewrite (finite_not_below_neg_inf _ Hfin) in Hhi. discriminate. }
  assert (Hin_lo : In (best Py.lt L min_placeholder) L).
  { destruct (best_in Py.lt L min_placeholder) as [E | H]; [|exact H].
    rewrite E in Hlo. cbn in Hlo.
    rewrite (finite_not_above_pos_inf _ Hfin) in Hlo. discriminate. }
  exists (best Py.gt L max_placeholder), (best Py.lt L min_placeholder).
  repeat split; auto.
  eapply le_trans; eassumption.
Qed.

Lemma lowest_at_most_highest_witness :
  exists hi lo,
    Py.le (temp lo) (temp hi) = true /\
    prints (temperatures_parameter_2 Example.three_stations default_parser)
      initial_world [highest_line hi; lowest_line lo].
Proof.
  destruct (lowest_at_most_highest Example.three_stations default_parser
              initial_world [Example.fresh "3"; Example.fresh "1"; Example.fresh "2"])
    as (hi & lo & _ & _ & _ & _ & Hle & _ & Hp).
  - eexists. eexists. repeat split; reflexivity.
  - repeat constructor; eexists; vm_compute; reflexivity.
  - eexists. split; [vm_compute; left; reflexivity | reflexivity].
  - exists hi, lo. split; assumption.
Defined.

(** C9 as stated fails: the only station is eligible and yields a
    reading, whose temperature is NaN; both lines show the placeholder
    "N/A", and the "Lowest" temperature, plus infinity, is not at most
    the "Highest", minus infinity. *)
Lemma nan_reading_leaves_placeholders :
  exists r,
    readings (Example.one_station "nan") default_parser Example.now
      [Example.fresh "1"] = [r] /\
    name r = "station1" /\
    stdout (snd (temperatures_parameter_2 (Example.one_station "nan")
                   default_parser initial_world)) = placeholder_lines /\
    Py.le (temp min_placeholder) (temp max_placeholder) = false.
Proof.
  eexists. split; [vm_compute; reflexivity|].
  split; [reflexivity|]. split; [vm_compute; reflexivity | reflexivity].
Qed.

Lemma readings_none env self now l :
  (forall s, In s l -> visit env self now s = Ok None) ->
  readings env self now l = [].
Proof.
  induction l as [| s l IH]; intros H; [reflexivity|].
  unfold readings in *. cbn. rewrite (H s (or_introl eq_refl)). cbn.
  apply IH. intros s' Hs'. apply H. right. exact Hs'.
Qed.

(** C6. A run over a fetched list each of whose stations is skipped, as
    too old or for want of a reading, returns and prints the two
    placeholder lines, "N/A" with minus and plus infinity. A station
    that is too old and has no name is not skipped: the run over the
    list that holds only such a station raises [KeyError] and prints
    nothing. *)
Theorem placeholders_when_no_reading :
  (forall env self w l,
     let now := clock env (clock_reads w) in
     fetches env self l ->
     (forall s, In s l -> visit env self now s = Ok None) ->
     fst (temperatures_parameter_2 env self w) = Ok tt /\
     prints (temperatures_parameter_2 env self) w placeholder_lines) /\
  (fetches Example.only_stale_unnamed default_parser [Example.stale_unnamed] /\
   too_old Example.now 0 = true /\
   temperatures_parameter_2 Example.only_stale_unnamed default_parser initial_world =
     (Raise (KeyError "name"), ticked (requested Example.list_url initial_world))).
Proof.
  split.
  - intros env self w l now Hf Hnone.
    assert (Hc : Forall (completes env self now) l).
    { apply Forall_forall. intros s Hs. exists None. apply Hnone, Hs. }
    destruct (run_completes env self w l Hf Hc) as [Hv Hp]. fold now in Hp.
    rewrite readings_none in Hp; [split; assumption|].
    intros s Hs. apply Hnone.
    eapply Permutation_in;
      [symmetry; apply (SortedFacts.sorted_perm String.leb st_key) | exact Hs].
  - split; [|split; vm_compute; reflexivity].
    eexists. eexists. repeat split; reflexivity.
Qed.

Lemma placeholders_when_no_reading_witness :
  fst (temperatures_parameter_2 Example.only_stale_named default_parser initial_world)
    = Ok tt /\
  prints (temperatures_parameter_2 Example.only_stale_named default_parser)
    initial_world placeholder_lines.
Proof.
  apply (proj1 placeholders_when_no_reading Example.only_stale_named default_parser
           initial_world [Example.stale_named]).
  - eexists. eexists. repeat split; reflexivity.
  - intros s [<- | []]. vm_compute. reflexivity.
Defined.

(** C5. A failure that belongs to one station is not always absorbed. A
    fresh station whose answer has status 200 and a [station] object
    without [name] makes [get_station_data] raise [KeyError]: the run
    ends there, prints nothing and never requests the next station. A
    station that is too old and has no name in the station list ends the
    run the same way, before any station is requested. *)
Theorem unnamed_station_aborts_run :
  temperatures_parameter_2 Example.unnamed_answer default_parser initial_world =
    (Raise (KeyError "name"),
     requested (Example.data_url "1")
       (ticked (requested Example.list_url initial_world))) /\
  (exists r2, reading Example.unnamed_answer default_parser (Example.fresh "2")
                = Ok (Some r2) /\ name r2 = "station2") /\
  temperatures_parameter_2 Example.only_stale_unnamed default_parser initial_world =
    (Raise (KeyError "name"), ticked (requested Example.list_url initial_world)).
Proof.
  split; [vm_compute; reflexivity|].
  split; [|vm_compute; reflexivity].
  eexists. split; [vm_compute; reflexivity | reflexivity].
Qed.






Lemma reading_ext env1 env2 self s :
  (forall u, http env1 u = http env2 u) ->
  reading env1 self s = reading env2 self s.
Proof. intros H. rewrite !reading_eq, H. reflexivity. Qed.

Lemma scan_ext env1 env2 self now l :
  (forall u, http env1 u = http env2 u) ->
  forall acc, scan env1 self now l acc = scan env2 self now l acc.
Proof.
  intros H. induction l as [| s l IH]; intros acc; cbn; [reflexivity|].
  unfold visit. rewrite (reading_ext env1 env2 self s H).
  destruct (Datetime.fromtimestamp (st_updated s / 1000)) as [u | e]; cbn;
    [|reflexivity].
  destruct (if too_old now u then _ else _) as [o | e]; cbn; [apply IH | reflexivity].
Qed.

Lemma extrema_ext env1 env2 self now :
  (forall u, http env1 u = http env2 u) ->
  extrema env1 self now = extrema env2 self now.
Proof.
  intros H. unfold extrema. rewrite H.
  destruct (http env2 _) as [r | e]; cbn; [|reflexivity].
  destruct (response_json r) as [doc | e]; cbn; [|reflexivity].
  destruct (getitem "station" (station_member doc)) as [m | e]; cbn; [|reflexivity].
  destruct (sorted_stations m) as [l | e]; cbn; [|reflexivity].
  apply scan_ext, H.
Qed.

(** C8. Two runs against the same answers of the service, with the same
    instant read from the clock, end alike and print the same lines,
    whatever the worlds they start in. *)
Theorem same_snapshot_same_output env1 env2 self w1 w2 :
  (forall u, http env1 u = http env2 u) ->
  clock env1 (clock_reads w1) = clock env2 (clock_reads w2) ->
  fst (temperatures_parameter_2 env1 self w1) =
    fst (temperatures_parameter_2 env2 self w2) /\
  exists out,
    prints (temperatures_parameter_2 env1 self) w1 out /\
    prints (temperatures_parameter_2 env2 self) w2 out.
Proof.
  intros Hhttp Hclock.
  destruct (run_spec env1 self w1) as [Hv1 Hp1].
  destruct (run_spec env2 self w2) as [Hv2 Hp2].
  cbv zeta in *. rewrite Hclock, (extrema_ext env1 env2 self _ Hhttp) in Hv1, Hp1.
  split; [congruence|]. eexists. split; eassumption.
Qed.

Lemma same_snapshot_same_output_witness :
  exists out,
    prints (temperatures_parameter_2 Example.three_stations default_parser)
      initial_world out /\
    prints (temperatures_parameter_2 Example.three_stations_again default_parser)
      Example.later_world out.
Proof.
  apply (same_snapshot_same_output Example.three_stations
           Example.three_stations_again default_parser initial_world
           Example.later_world).
  - intros u. reflexivity.
  - reflexivity.
Defined.

End Temperatures.

(** *** [parameters] *)

Module Parameters.
Import Effects.

Section Decorated.
Context {A : Type} (g : A -> Z).

Let tagged (p : Z * A) : Prop := fst p = g (snd p).

Lemma decorate_total (f : A -> result Z) l :
  (forall x, In x l -> f x = Ok (g x)) ->
  decorate f l = Ok (map (fun x => (g x, x)) l).
Proof.
  induction l as [| x l IH]; intros H; cbn; [reflexivity|].
  rewrite (H x (or_introl eq_refl)). cbn.
  rewrite IH by (intros y Hy; apply H; right; exact Hy). reflexivity.
Qed.

Lemma insert_tagged x d :
  Forall tagged d ->
  Forall tagged (Py.insert Z.leb fst (g x, x) d) /\
  map snd (Py.insert Z.leb fst (g x, x) d) = Py.insert Z.leb g x (map snd d).
Proof.
  induction 1 as [| [k y] d Hy Hd [IH1 IH2]]; cbn.
  - split; [repeat constructor | reflexivity].
  - unfold tagged in Hy. cbn in Hy. subst k.
    destruct (g x <=? g y); cbn.
    + split; [repeat constructor; assumption | reflexivity].
    + split; [constructor; [reflexivity | exact IH1] | rewrite IH2; reflexivity].
Qed.

Lemma sorted_tagged l :
  Forall tagged (Py.sorted Z.leb fst (map (fun x => (g x, x)) l)) /\
  map snd (Py.sorted Z.leb fst (map (fun x => (g x, x)) l)) = Py.sorted Z.leb g l.
Proof.
  induction l as [| x l [IH1 IH2]].
  - split; [constructor | reflexivity].
  - change (Py.sorted Z.leb fst (map (fun x => (g x, x)) (x :: l)))
      with (Py.insert Z.leb fst (g x, x)
              (Py.sorted Z.leb fst (map (fun x => (g x, x)) l))).
    change (Py.sorted Z.leb g (x :: l))
      with (Py.insert Z.leb g x (Py.sorted Z.leb g l)).
    destruct (insert_tagged x _ IH1) as [H1 H2].
    split; [exact H1 | rewrite H2, IH2; reflexivity].
Qed.

End Decorated.

Lemma print_all ps :
  forall w,
    fst (for_each ps (fun _ param => print (parameter_line param)) tt w) = Ok tt /\
    stdout (snd (for_each ps (fun _ param => print (parameter_line param)) tt w)) =
      stdout w ++ map parameter_line ps.
Proof.
  induction ps as [| p ps IH]; intros w; cbn.
  - rewrite app_nil_r. split; reflexivity.
  - unfold bind. change (print (parameter_line p) w)
      with (@Ok unit tt, printed (parameter_line p) w).
    destruct (IH (printed (parameter_line p) w)) as [H1 H2].
    split; [exact H1|]. rewrite H2. cbn. rewrite <- app_assoc. reflexivity.
Qed.













End Parameters.

(** *** Requests and log records of the scan *)

Module TraceFacts.
Import Effects ScanFacts.

Lemma asked_spec now s :
  asked now s = true <->
  representable s /\ age_in_seconds now s <= Datetime.timedelta_days 2.
Proof.
  unfold asked, representable, age_in_seconds, Datetime.fromtimestamp, too_old.
  destruct (Z.leb_spec Datetime.min_timestamp (st_updated s / 1000)) as [H1 | H1];
    destruct (Z.leb_spec (st_updated s / 1000) Datetime.max_timestamp) as [H2 | H2];
    cbn [andb]; try (split; [discriminate | lia]).
  rewrite Bool.negb_true_iff, Z.ltb_ge. split; [intros H | intros [_ H]]; auto.
Qed.

(** What one call of [get_station_data] adds to the requests and to the
    log. *)
Lemma get_station_data_world env self s w :
  requests (snd (get_station_data env self s w)) = requests w ++ [data_url self s] /\
  match reading env self s with
  | Ok (Some sd) =>
      log (snd (get_station_data env self s w)) = log w ++ [info_record sd]
  | Ok None =>
      exists rec, log (snd (get_station_data env self s w)) = log w ++ [rec] /\
                  is_info rec = false
  | Raise _ => log (snd (get_station_data env self s w)) = log w
  end.
Proof.
  split; [apply get_station_data_requests|].
  rewrite reading_eq.
  unfold get_station_data, _make_request, requests_get, bind, lift, logger, ret.
  destruct (http env _) as [r | e]; cbn; [|reflexivity].
  destruct (negb (status_code r =? 200)); cbn; [eexists; split; reflexivity|].
  destruct (response_json r) as [doc | e]; cbn; [|reflexivity].
  destruct (station_object doc) as [so | e]; cbn; [|reflexivity].
  destruct (getitem "name" (so_name so)) as [n | e]; cbn; [|reflexivity].
  destruct (first_value doc) as [t | e]; cbn; [|eexists; split; reflexivity].
  destruct (getitem "key" (so_key so)) as [k | e]; reflexivity.
Qed.

(** What one iteration adds to the requests and to the log. *)
Lemma scan_station_world env self now acc s w :
  requests (snd (scan_station env self now acc s w)) =
    requests w ++ (if asked now s then [data_url self s] else []) /\
  match visit env self now s with
  | Ok o =>
      exists rec,
        log (snd (scan_station env self now acc s w)) = log w ++ [rec] /\
        filter is_info [rec] =
          match o with Some r => [info_record r] | None => [] end
  | Raise _ => log (snd (scan_station env self now acc s w)) = log w
  end.
Proof.
  unfold scan_station, visit, asked, bind, lift.
  destruct (Datetime.fromtimestamp (st_updated s / 1000)) as [updated | e];
    cbn -[get_station_data reading]; [|rewrite app_nil_r; split; reflexivity].
  destruct (too_old now updated); cbn -[get_station_data reading].
  - rewrite app_nil_r.
    destruct (st_name s) as [n |]; cbn; split; try reflexivity.
    eexists. split; reflexivity.
  - destruct (get_station_data_world env self s w) as [Hr Hl].
    pose proof (get_station_data_value env self s w) as Hv.
    destruct (get_station_data env self s w) as [[[r |] | e] w'];
      cbn in Hr, Hl, Hv |- *; rewrite <- Hv in Hl |- *; cbn in Hl |- *.
    + split; [exact Hr|]. eexists. split; [exact Hl | reflexivity].
    + split; [exact Hr|]. destruct Hl as (rec & Hl & Hi).
      exists rec. split; [exact Hl|]. cbn. rewrite Hi. reflexivity.
    + split; assumption.
Qed.

(** A scan none of whose iterations raises: one request for each station
    asked about, one log record for each station. *)
Lemma for_each_world env self now l :
  Forall (completes env self now) l ->
  forall acc w,
    requests (snd (for_each l (scan_station env self now) acc w)) =
      requests w ++ map (data_url self) (filter (asked now) l) /\
    exists recs,
      log (snd (for_each l (scan_station env self now) acc w)) = log w ++ recs /\
      List.length recs = List.length l /\
      filter is_info recs = map info_record (readings env self now l).
Proof.
  induction 1 as [| s l [o Ho] Hl IH]; intros acc w.
  - cbn. rewrite app_nil_r. split; [reflexivity|].
    exists []. rewrite app_nil_r. repeat split; reflexivity.
  - cbn [for_each]. unfold bind.
    destruct (scan_station_world env self now acc s w) as [Hr Hg].
    pose proof (scan_station_value env self now acc s w) as Hv.
    rewrite Ho in Hg, Hv.
    destruct (scan_station env self now acc s w) as [[acc' | e] w'];
      cbn in Hr, Hg, Hv; [|discriminate].
    destruct (IH acc' w') as [IHr (recs & IHl & IHn & IHi)].
    destruct Hg as (rec & Hg1 & Hg2).
    split.
    + rewrite IHr, Hr, <- app_assoc. cbn [filter].
      destruct (asked now s); reflexivity.
    + exists (rec :: recs). split; [|split].
      * rewrite IHl, Hg1, <- app_assoc. reflexivity.
      * cbn. rewrite IHn. reflexivity.
      * change (rec :: recs) with ([rec] ++ recs).
        rewrite filter_app.
        change (filter is_info [rec]) with (if is_info rec then [rec] else []).
        rewrite Hg2, IHi.
        unfold readings. cbn [flat_map]. rewrite Ho, map_app.
        destruct o; reflexivity.
Qed.

(** A scan whose first failing iteration is that of [s]: it raises
    there, after the requests of the stations before [s] and, when [s]
    is asked about, that of [s]. *)
Lemma for_each_abort env self now l1 s l2 e :
  Forall (completes env self now) l1 ->
  visit env self now s = Raise e ->
  forall acc w,
    fst (for_each (l1 ++ s :: l2) (scan_station env self now) acc w) = Raise e /\
    requests (snd (for_each (l1 ++ s :: l2) (scan_station env self now) acc w)) =
      requests w ++ map (data_url self) (filter (asked now) l1)
                 ++ (if asked now s then [data_url self s] else []) /\
    exists recs,
      log (snd (for_each (l1 ++ s :: l2) (scan_station env self now) acc w)) =
        log w ++ recs /\
      List.length recs = List.length l1.
Proof.
  intros Hc He. induction Hc as [| x l1 [o Ho] Hl IH]; intros acc w.
  - cbn [app for_each]. unfold bind.
    destruct (scan_station_world env self now acc s w) as [Hr Hg].
    pose proof (scan_station_value env self now acc s w) as Hv.
    rewrite He in Hg, Hv.
    destruct (scan_station env self now acc s w) as [[acc' | e'] w'];
      cbn in Hr, Hg, Hv |- *; [discriminate|].
    split; [exact Hv|]. split; [exact Hr|].
    exists []. rewrite app_nil_r. split; [exact Hg | reflexivity].
  - change ((x :: l1) ++ s :: l2) with (x :: (l1 ++ s :: l2)).
    cbn [for_each]. unfold bind.
    destruct (scan_station_world env self now acc x w) as [Hr Hg].
    pose proof (scan_station_value env self now acc x w) as Hv.
    rewrite Ho in Hg, Hv.
    destruct (scan_station env self now acc x w) as [[acc' | e'] w'];
      cbn in Hr, Hg, Hv; [|discriminate].
    destruct (IH acc' w') as (IHv & IHr & recs & IHl & IHn).
    destruct Hg as (rec & Hg1 & _).
    split; [exact IHv|]. split.
    + rewrite IHr, Hr, <- !app_assoc. cbn [filter].
      destruct (asked now x); reflexivity.
    + exists (rec :: recs). split.
      * rewrite IHl, Hg1, <- app_assoc. reflexivity.
      * cbn. rewrite IHn. reflexivity.
Qed.

(** Whatever its outcome, a scan requests nothing but the data of
    stations of its list. *)
Lemma for_each_requests env self now l :
  forall acc w,
    exists us,
      requests (snd (for_each l (scan_station env self now) acc w)) = requests w ++ us /\
      Forall (fun u => exists s, In s l /\ u = data_url self s) us.
Proof.
  induction l as [| s l IH]; intros acc w.
  - exists []. cbn. rewrite app_nil_r. split; [reflexivity | constructor].
  - cbn [for_each]. unfold bind.
    destruct (scan_station_world env self now acc s w) as [Hr _].
    assert (Hs : Forall (fun u => exists s0, In s0 (s :: l) /\ u = data_url self s0)
                   (if asked now s then [data_url self s] else [])).
    { destruct (asked now s); repeat constructor.
      exists s. split; [left|]; reflexivity. }
    destruct (scan_station env self now acc s w) as [[acc' | e] w']; cbn in Hr |- *.
    + destruct (IH acc' w') as (us & Hus & HF).
      exists ((if asked now s then [data_url self s] else []) ++ us).
      split; [rewrite Hus, Hr, <- app_assoc; reflexivity|].
      apply Forall_app. split; [exact Hs|].
      eapply Forall_impl; [|exact HF].
      intros u (s0 & H0 & ->). exists s0. split; [right; exact H0 | reflexivity].
    + eexists. split; [exact Hr | exact Hs].
Qed.

(** A run over a fetched list is the scan of the sorted list, started
    after the request of the list and the reading of the clock, followed
    by the two lines when it returns. *)
Lemma run_fetched env self w l :
  fetches env self l ->
  temperatures_parameter_2 env self w =
  match for_each (Py.sorted String.leb st_key l)
          (scan_station env self (clock env (clock_reads w)))
          (min_placeholder, max_placeholder)
          (ticked (requested (list_url self) w)) with
  | (Ok acc, w') =>
      (Ok tt, printed (lowest_line (fst acc)) (printed (highest_line (snd acc)) w'))
  | (Raise e, w') => (Raise e, w')
  end.
Proof.
  intros (r & doc & Hr & Hd & Hm).
  unfold temperatures_parameter_2, _make_request, requests_get, datetime_now,
    bind, lift, response_json, list_url.
  cbn -[for_each]. cbn in Hr. rewrite Hr. cbn -[for_each].
  rewrite Hd. cbn -[for_each]. rewrite Hm. cbn -[for_each].
  match goal with
  | |- context [for_each ?l ?b ?a ?w0] =>
      destruct (for_each l b a w0) as [[[mn mx] | e] w']
  end; reflexivity.
Qed.

Lemma sorted_completes env self now l :
  Forall (completes env self now) l ->
  Forall (completes env self now) (Py.sorted String.leb st_key l).
Proof.
  intros H. eapply Permutation_Forall; [apply SortedFacts.sorted_perm | exact H].
Qed.

End TraceFacts.

(** *** Further properties of [temperatures_parameter_2] *)

Module Run.
Import FloatOrder FloatOrderFacts Effects ScanFacts ExtremaFacts TraceFacts.

Lemma completes_representable env self now s :
  completes env self now s -> representable s.
Proof.
  intros [o H]. unfold visit, Datetime.fromtimestamp, representable in *.
  destruct (Z.leb_spec Datetime.min_timestamp (st_updated s / 1000));
    destruct (Z.leb_spec (st_updated s / 1000) Datetime.max_timestamp);
    cbn in H; try discriminate H. lia.
Qed.

(** The two lines of a run that completes, as the two accumulators over
    the readings of the sorted list. *)
Lemma run_best env self w l :
  let now := clock env (clock_reads w) in
  let L := readings env self now (Py.sorted String.leb st_key l) in
  fetches env self l ->
  Forall (completes env self now) l ->
  fst (temperatures_parameter_2 env self w) = Ok tt /\
  prints (temperatures_parameter_2 env self) w
    [highest_line (best Py.gt L max_placeholder);
     lowest_line (best Py.lt L min_placeholder)].
Proof.
  intros now L Hf Hc.
  destruct (Temperatures.run_completes env self w l Hf Hc) as [Hv Hp].
  fold now in Hp. rewrite fold_update in Hp. split; [exact Hv | exact Hp].
Qed.

(** X1. A failure before the report leaves standard output alone: when
    obtaining the station list or an iteration of the scan raises, the
    run raises that exception without having printed anything. A
    station member that is an object with members, not a list, is such
    a failure, a [TypeError]. *)
Theorem failure_before_report_prints_nothing env self w e :
  extrema env self (clock env (clock_reads w)) = Raise e ->
  fst (temperatures_parameter_2 env self w) = Raise e /\
  prints (temperatures_parameter_2 env self) w [].
Proof.
  intros He. destruct (run_spec env self w) as [Hv Hp].
  cbv zeta in *. rewrite He in Hv, Hp. split; assumption.
Qed.

Lemma failure_before_report_prints_nothing_witness :
  fst (temperatures_parameter_2 Scenario.station_is_object default_parser
         Example.later_world) = Raise TypeError /\
  prints (temperatures_parameter_2 Scenario.station_is_object default_parser)
    Example.later_world [].
Proof.
  apply (failure_before_report_prints_nothing Scenario.station_is_object
           default_parser Example.later_world TypeError).
  vm_compute. reflexivity.
Defined.

(** X2. A run that does not obtain the station list ends at once: when
    the request of the list fails, when its body is not JSON, whatever
    the status code, or when the document has no [station] member, the
    run raises that exception after this one request, without reading
    the clock, logging or printing. *)
Theorem run_ends_without_station_list env self w :
  (forall e,
     http env (list_url self) = Raise e ->
     temperatures_parameter_2 env self w = (Raise e, requested (list_url self) w)) /\
  (forall r,
     http env (list_url self) = Ok r -> json r = None ->
     temperatures_parameter_2 env self w =
       (Raise JSONDecodeError, requested (list_url self) w)) /\
  (forall r doc,
     http env (list_url self) = Ok r -> json r = Some doc ->
     station_member doc = None ->
     temperatures_parameter_2 env self w =
       (Raise (KeyError "station"), requested (list_url self) w)).
Proof.
  unfold list_url.
  split; [|split]; intros until 1;
    unfold temperatures_parameter_2, _make_request, requests_get, bind, lift,
      response_json;
    cbn in H |- *; rewrite H; cbn.
  - reflexivity.
  - intros ->. reflexivity.
  - intros -> ->. reflexivity.
Qed.

Lemma run_ends_without_station_list_witness :
  temperatures_parameter_2 (Example.env []) default_parser Example.later_world =
    (Raise JSONDecodeError, requested Example.list_url Example.later_world).
Proof.
  apply (proj1 (proj2 (run_ends_without_station_list (Example.env []) default_parser
                         Example.later_world))
           {| status_code := 404; url := Example.list_url; json := None |});
    reflexivity.
Defined.

(** X3. In a run over a fetched list none of whose iterations raises,
    the requests are that of the list and then one for each station
    whose timestamp, cut to whole seconds, is at most 2 days before the
    instant read from the clock, in ascending order of the keys compared
    as strings; no other station is requested. *)
Theorem fresh_stations_requested_in_key_order env self w l :
  let now := clock env (clock_reads w) in
  fetches env self l ->
  Forall (completes env self now) l ->
  exists stations,
    Permutation l stations /\
    StronglySorted (ordered String.leb st_key) stations /\
    requests (snd (temperatures_parameter_2 env self w)) =
      requests w ++ list_url self ::
        map (data_url self)
          (filter (fun s => age_in_seconds now s <=? Datetime.timedelta_days 2)
                  stations).
Proof.
  intros now Hf Hc. exists (Py.sorted String.leb st_key l).
  split; [apply SortedFacts.sorted_perm|].
  split; [apply SortedFacts.sorted_sorted;
          [apply String.leb_total | apply SortedFacts.string_leb_trans]|].
  rewrite (run_fetched env self w l Hf). fold now.
  pose proof (sorted_completes env self now l Hc) as Hs.
  destruct (for_each_world env self now _ Hs (min_placeholder, max_placeholder)
              (ticked (requested (list_url self) w))) as [Hr _].
  pose proof (for_each_value env self now (Py.sorted String.leb st_key l)
                (min_placeholder, max_placeholder)
                (ticked (requested (list_url self) w))) as Hv.
  rewrite (scan_readings env self now _ Hs) in Hv.
  change (requests (ticked (requested (list_url self) w)))
    with (requests w ++ [list_url self]) in Hr.
  destruct (for_each _ _ _ _) as [[acc | e] w']; cbn [fst snd] in Hr, Hv;
    [|discriminate].
  cbn [fst snd printed requests]. rewrite Hr, <- app_assoc.
  change ([list_url self] ++ ?x) with (list_url self :: x). do 3 f_equal.
  apply filter_ext_in. intros s Hin.
  rewrite Forall_forall in Hs. pose proof (completes_representable _ _ _ _ (Hs s Hin)).
  destruct (asked now s) eqn:E.
  - apply asked_spec in E. symmetry. apply Z.leb_le. tauto.
  - symmetry. apply Z.leb_gt.
    destruct (Z.le_gt_cases (age_in_seconds now s) (Datetime.timedelta_days 2));
      [|assumption].
    assert (asked now s = true) by (apply asked_spec; tauto). congruence.
Qed.

Lemma fresh_stations_requested_in_key_order_witness :
  exists stations,
    StronglySorted (ordered String.leb st_key) stations /\
    requests (snd (temperatures_parameter_2 Example.three_stations default_parser
                     initial_world)) =
      list_url default_parser ::
        map (data_url default_parser)
          (filter (fun s => age_in_seconds Example.now s <=? Datetime.timedelta_days 2)
                  stations).
Proof.
  destruct (fresh_stations_requested_in_key_order Example.three_stations default_parser
              initial_world [Example.fresh "3"; Example.fresh "1"; Example.fresh "2"])
    as (stations & _ & Hs & Hr).
  - eexists. eexists. repeat split; reflexivity.
  - repeat constructor; eexists; vm_compute; reflexivity.
  - exists stations. split; [exact Hs | exact Hr].
Defined.

(** X4. The first station, in key order, whose iteration raises ends the
    run with that exception: nothing is printed, and no station after it
    in key order is requested. The requests are that of the list, those
    of the fresh stations before it and, when the iteration got as far
    as asking the service, its own. *)
Theorem first_failing_station_ends_run env self w l before s after e :
  let now := clock env (clock_reads w) in
  fetches env self l ->
  Py.sorted String.leb st_key l = before ++ s :: after ->
  Forall (completes env self now) before ->
  visit env self now s = Raise e ->
  fst (temperatures_parameter_2 env self w) = Raise e /\
  prints (temperatures_parameter_2 env self) w [] /\
  requests (snd (temperatures_parameter_2 env self w)) =
    requests w ++ list_url self ::
      map (data_url self) (filter (asked now) before)
      ++ (if asked now s then [data_url self s] else []).
Proof.
  intros now Hf Hl Hb He.
  destruct (run_spec env self w) as [_ Hp]. fold now in Hp.
  rewrite (extrema_fetched env self now l Hf) in Hp.
  unfold prints in *.
  rewrite (run_fetched env self w l Hf) in Hp |- *. fold now in Hp |- *.
  pose proof (for_each_value env self now (Py.sorted String.leb st_key l)
                (min_placeholder, max_placeholder)
                (ticked (requested (list_url self) w))) as Hv.
  rewrite <- Hv in Hp. rewrite Hl in Hp |- *.
  destruct (for_each_abort env self now before s after e Hb He
              (min_placeholder, max_placeholder)
              (ticked (requested (list_url self) w))) as (H1 & H2 & _).
  change (requests (ticked (requested (list_url self) w)))
    with (requests w ++ [list_url self]) in H2.
  destruct (for_each _ _ _ _) as [[acc | e'] w']; cbn [fst snd] in H1, H2, Hp |- *;
    [discriminate|].
  injection H1 as ->.
  split; [reflexivity|]. split; [exact Hp|].
  rewrite H2, <- app_assoc. reflexivity.
Qed.

Lemma first_failing_station_ends_run_witness :
  fst (temperatures_parameter_2 Example.unnamed_answer default_parser initial_world)
    = Raise (KeyError "name") /\
  requests (snd (temperatures_parameter_2 Example.unnamed_answer default_parser
                   initial_world)) =
    [list_url default_parser; data_url default_parser (Example.fresh "1")].
Proof.
  destruct (first_failing_station_ends_run Example.unnamed_answer default_parser
              initial_world [Example.fresh "1"; Example.fresh "2"]
              [] (Example.fresh "1") [Example.fresh "2"] (KeyError "name"))
    as (Hv & _ & Hr).
  - eexists. eexists. repeat split; reflexivity.
  - reflexivity.
  - constructor.
  - vm_compute. reflexivity.
  - split; [exact Hv | exact Hr].
Defined.

(** X5. A run over a fetched list none of whose iterations raises makes
    exactly one call on the logger for each station of the list; the
    calls at level INFO are those that report a reading, one for each
    eligible station with a reading, in key order. *)
Theorem one_log_record_per_station env self w l :
  let now := clock env (clock_reads w) in
  fetches env self l ->
  Forall (completes env self now) l ->
  exists recs,
    log (snd (temperatures_parameter_2 env self w)) = log w ++ recs /\
    List.length recs = List.length l /\
    filter is_info recs =
      map info_record (readings env self now (Py.sorted String.leb st_key l)).
Proof.
  intros now Hf Hc.
  rewrite (run_fetched env self w l Hf). fold now.
  pose proof (sorted_completes env self now l Hc) as Hs.
  destruct (for_each_world env self now _ Hs (min_placeholder, max_placeholder)
              (ticked (requested (list_url self) w)))
    as [_ (recs & Hl & Hn & Hi)].
  pose proof (for_each_value env self now (Py.sorted String.leb st_key l)
                (min_placeholder, max_placeholder)
                (ticked (requested (list_url self) w))) as Hv.
  rewrite (scan_readings env self now _ Hs) in Hv.
  change (log (ticked (requested (list_url self) w))) with (log w) in Hl.
  destruct (for_each _ _ _ _) as [[acc | e] w']; cbn [fst snd] in Hl, Hv;
    [|discriminate].
  exists recs. split; [exact Hl|]. split; [|exact Hi].
  rewrite Hn. symmetry. apply Permutation_length, SortedFacts.sorted_perm.
Qed.

Lemma one_log_record_per_station_witness :
  exists recs,
    log (snd (temperatures_parameter_2 Example.three_stations default_parser
                initial_world)) = recs /\
    List.length recs = 3%nat /\
    filter is_info recs = recs.
Proof.
  destruct (one_log_record_per_station Example.three_stations default_parser
              initial_world [Example.fresh "3"; Example.fresh "1"; Example.fresh "2"])
    as (recs & Hl & Hn & Hi).
  - eexists. eexists. repeat split; reflexivity.
  - repeat constructor; eexists; vm_compute; reflexivity.
  - exists recs. split; [exact Hl|]. split; [exact Hn|].
    pose proof (Hl : log (snd (temperatures_parameter_2 Example.three_stations
                                 default_parser initial_world)) = recs) as E.
    rewrite <- E. vm_compute. reflexivity.
Defined.

Lemma above_neg_inf_not_le a :
  Py.gt a Py.neg_inf = true -> Py.le a Py.neg_inf = true -> False.
Proof.
  intros H1 H2. pose proof (lt_le_trans _ _ _ H1 H2) as H.
  rewrite lt_irrefl in H. discriminate.
Qed.

Lemma below_pos_inf_not_le a :
  Py.lt a Py.pos_inf = true -> Py.le Py.pos_inf a = true -> False.
Proof.
  intros H1 H2. pose proof (le_lt_trans _ _ _ H2 H1) as H.
  rewrite lt_irrefl in H. discriminate.
Qed.

(** X6. When no iteration raises, each of the two lines shows either the
    placeholder or the reading of an eligible station, and never a NaN.
    The placeholder stays on the "Highest" line exactly when no reading
    is above minus infinity, and on the "Lowest" line exactly when no
    reading is below plus infinity. *)
Theorem lines_show_placeholder_or_reading env self w l :
  let now := clock env (clock_reads w) in
  let L := readings env self now l in
  fetches env self l ->
  Forall (completes env self now) l ->
  exists hi lo,
    prints (temperatures_parameter_2 env self) w [highest_line hi; lowest_line lo] /\
    (hi = max_placeholder \/ In hi L) /\
    (lo = min_placeholder \/ In lo L) /\
    Py.is_nan (temp hi) = false /\
    Py.is_nan (temp lo) = false /\
    (hi = max_placeholder <->
     forall x, In x L -> Py.gt (temp x) Py.neg_inf = false) /\
    (lo = min_placeholder <->
     forall x, In x L -> Py.lt (temp x) Py.pos_inf = false).
Proof.
  intros now L Hf Hc.
  destruct (run_best env self w l Hf Hc) as [_ Hp]. fold now in Hp.
  set (L' := readings env self now (Py.sorted String.leb st_key l)) in *.
  assert (Hperm : Permutation L L') by apply Temperatures.readings_sorted.
  assert (Hto : forall x, In x L -> In x L')
    by (intros x; apply Permutation_in, Hperm).
  assert (Hback : forall x, In x L' -> In x L)
    by (intros x; apply Permutation_in; symmetry; exact Hperm).
  destruct (best_gt_bound L' max_placeholder eq_refl) as (Hn_hi & _ & Hhi).
  destruct (best_lt_bound L' min_placeholder eq_refl) as (Hn_lo & _ & Hlo).
  exists (best Py.gt L' max_placeholder), (best Py.lt L' min_placeholder).
  split; [exact Hp|].
  split; [destruct (best_in Py.gt L' max_placeholder); auto|].
  split; [destruct (best_in Py.lt L' min_placeholder); auto|].
  split; [exact Hn_hi|]. split; [exact Hn_lo|]. split; split.
  - intros E x Hx. destruct (Py.gt (temp x) Py.neg_inf) eqn:G; [|reflexivity].
    exfalso. apply (above_neg_inf_not_le _ G).
    specialize (Hhi x (Hto x Hx) (gt_number _ _ G)). rewrite E in Hhi. exact Hhi.
  - intros H. apply best_stays. intros x Hx. apply H, Hback, Hx.
  - intros E x Hx. destruct (Py.lt (temp x) Py.pos_inf) eqn:G; [|reflexivity].
    exfalso. apply (below_pos_inf_not_le _ G).
    specialize (Hlo x (Hto x Hx) (lt_number_l _ _ G)). rewrite E in Hlo. exact Hlo.
  - intros H. apply best_stays. intros x Hx. apply H, Hback, Hx.
Qed.

Lemma lines_show_placeholder_or_reading_witness :
  exists hi lo,
    prints (temperatures_parameter_2 (Example.one_station "nan") default_parser)
      initial_world [highest_line hi; lowest_line lo] /\
    Py.is_nan (temp hi) = false /\ Py.is_nan (temp lo) = false.
Proof.
  destruct (lines_show_placeholder_or_reading (Example.one_station "nan")
              default_parser initial_world [Example.fresh "1"])
    as (hi & lo & Hp & _ & _ & Hhi & Hlo & _).
  - eexists. eexists. repeat split; reflexivity.
  - repeat constructor; eexists; vm_compute; reflexivity.
  - exists hi, lo. repeat split; assumption.
Defined.

(** X7. When no iteration raises, the temperature on the "Highest" line
    is at least, and the one on the "Lowest" line at most, every reading
    that is not a NaN, infinite ones included. The "Lowest" temperature
    is at most the "Highest" unless both lines show the placeholder. *)
Theorem lines_bound_every_number_read env self w l :
  let now := clock env (clock_reads w) in
  let L := readings env self now l in
  fetches env self l ->
  Forall (completes env self now) l ->
  exists hi lo,
    prints (temperatures_parameter_2 env self) w [highest_line hi; lowest_line lo] /\
    (forall x, In x L -> Py.is_nan (temp x) = false ->
               Py.le (temp x) (temp hi) = true /\ Py.le (temp lo) (temp x) = true) /\
    (Py.le (temp lo) (temp hi) = true \/
     hi = max_placeholder /\ lo = min_placeholder).
Proof.
  intros now L Hf Hc.
  destruct (run_best env self w l Hf Hc) as [_ Hp]. fold now in Hp.
  set (L' := readings env self now (Py.sorted String.leb st_key l)) in *.
  assert (Hperm : Permutation L L') by apply Temperatures.readings_sorted.
  assert (Hto : forall x, In x L -> In x L')
    by (intros x; apply Permutation_in, Hperm).
  destruct (best_gt_bound L' max_placeholder eq_refl) as (Hn_hi & _ & Hhi).
  destruct (best_lt_bound L' min_placeholder eq_refl) as (Hn_lo & _ & Hlo).
  exists (best Py.gt L' max_placeholder), (best Py.lt L' min_placeholder).
  split; [exact Hp|]. split.
  - intros x Hx Hn. split; [apply Hhi | apply Hlo]; auto.
  - destruct (best_in Py.gt L' max_placeholder) as [E1 | H1].
    + destruct (best_in Py.lt L' min_placeholder) as [E2 | H2].
      * right. split; assumption.
      * left. apply Hhi; assumption.
    + left. apply Hlo; assumption.
Qed.

Lemma lines_bound_every_number_read_witness :
  exists hi lo,
    prints (temperatures_parameter_2 (Example.two_stations "inf") default_parser)
      initial_world [highest_line hi; lowest_line lo] /\
    Py.le Py.pos_inf (temp hi) = true.
Proof.
  destruct (lines_bound_every_number_read (Example.two_stations "inf")
              default_parser initial_world [Example.fresh "2"; Example.fresh "1"])
    as (hi & lo & Hp & Hb & _).
  - eexists. eexists. repeat split; reflexivity.
  - repeat constructor; eexists; vm_compute; reflexivity.
  - exists hi, lo. split; [exact Hp|].
    refine (proj1 (Hb {| key := Some "1"; name := "station1"; temp := Py.pos_inf;
                         station := Some {| so_key := Some "1";
                                            so_name := Some "station1";
                                            so_rest := [] |} |} _ eq_refl)).
    vm_compute. right. left. reflexivity.
Defined.

(** X8. When exactly one eligible station yields a reading and its
    temperature is finite, that station is on both lines, as in the
    repository's test of a single station. *)
Theorem single_reading_on_both_lines env self w l r :
  let now := clock env (clock_reads w) in
  fetches env self l ->
  Forall (completes env self now) l ->
  readings env self now l = [r] ->
  Py.is_finite (temp r) = true ->
  fst (temperatures_parameter_2 env self w) = Ok tt /\
  prints (temperatures_parameter_2 env self) w [highest_line r; lowest_line r].
Proof.
  intros now Hf Hc Hr Hfin.
  destruct (run_best env self w l Hf Hc) as [Hv Hp]. fold now in Hp.
  pose proof (Temperatures.readings_sorted env self now l) as Hperm.
  rewrite Hr in Hperm. apply Permutation_length_1_inv in Hperm.
  rewrite Hperm in Hp. split; [exact Hv|].
  unfold best, keep in Hp. cbn [fold_left] in Hp.
  change (temp max_placeholder) with Py.neg_inf in Hp.
  change (temp min_placeholder) with Py.pos_inf in Hp.
  change (Py.gt (temp r) Py.neg_inf) with (Py.lt Py.neg_inf (temp r)) in Hp.
  rewrite (finite_above _ Hfin), (finite_below _ Hfin) in Hp. exact Hp.
Qed.

Lemma single_reading_on_both_lines_witness :
  prints (temperatures_parameter_2 (Example.one_station "-99") default_parser)
    initial_world
    [ "Highest temperature: station1, -99.0 degrees";
      "Lowest temperature: station1, -99.0 degrees" ].
Proof.
  refine (proj2 (single_reading_on_both_lines (Example.one_station "-99") default_parser
                   initial_world [Example.fresh "1"]
                   {| key := Some "1"; name := "station1";
                      temp := S754_finite true 6966505673588736 (-46);
                      station := Some {| so_key := Some "1"; so_name := Some "station1";
                                         so_rest := [] |} |} _ _ _ _)).
  - eexists. eexists. repeat split; reflexivity.
  - repeat constructor; eexists; vm_compute; reflexivity.
  - vm_compute. reflexivity.
  - reflexivity.
Defined.

End Run.

(** *** Failures of [get_station_data] and of an iteration *)

Module Failures.
Import Effects ScanFacts TraceFacts.

(** X9. Cases in which [get_station_data] raises, each with its
    exception: the request itself fails; or the status is 200 and the
    body is not JSON, or has no [station] member, or has a list there,
    or has an object without [name], or has an object with [name] but
    without [key] next to a temperature that [float] accepts. In each
    of them it has made its request and nothing else. Whenever it
    raises, nothing is logged, and either the request failed or the
    status is 200. *)
Theorem get_station_data_failures env self s w :
  (forall e,
     http env (data_url self s) = Raise e ->
     get_station_data env self s w = (Raise e, requested (data_url self s) w)) /\
  (forall r,
     http env (data_url self s) = Ok r -> status_code r = 200 ->
     (json r = None ->
      get_station_data env self s w =
        (Raise JSONDecodeError, requested (data_url self s) w)) /\
     (forall doc,
        json r = Some doc ->
        (station_member doc = None ->
         get_station_data env self s w =
           (Raise (KeyError "station"), requested (data_url self s) w)) /\
        (forall stations,
           station_member doc = Some (StationList stations) ->
           get_station_data env self s w =
             (Raise TypeError, requested (data_url self s) w)) /\
        (forall so,
           station_member doc = Some (StationObj so) ->
           (so_name so = None ->
            get_station_data env self s w =
              (Raise (KeyError "name"), requested (data_url self s) w)) /\
           (forall n t,
              so_name so = Some n -> parses doc t -> so_key so = None ->
              get_station_data env self s w =
                (Raise (KeyError "key"), requested (data_url self s) w))))) /\
  (forall e,
     fst (get_station_data env self s w) = Raise e ->
     snd (get_station_data env self s w) = requested (data_url self s) w /\
     (http env (data_url self s) = Raise e \/
      exists r, http env (data_url self s) = Ok r /\ status_code r = 200)).
Proof.
  unfold get_station_data, _make_request, requests_get, bind, lift, logger, ret,
    response_json, station_object.
  fold (data_url self s).
  split; [|split].
  - intros e ->. reflexivity.
  - intros r -> Hs. apply Z.eqb_eq in Hs. rewrite Hs. cbn [negb].
    split; [intros ->; reflexivity|].
    intros doc ->. cbn [rbind].
    split; [intros ->; reflexivity|].
    split; [intros stations ->; reflexivity|].
    intros so ->. cbn [rbind getitem].
    split; [intros ->; reflexivity|].
    intros n t -> Ht ->. apply StationData.first_value_ok in Ht. rewrite Ht.
    reflexivity.
  - intros e.
    destruct (http env (data_url self s)) as [r | e0]; cbn.
    + destruct (Z.eqb_spec (status_code r) 200) as [Hs | Hs]; cbn; [|discriminate].
      intros H. split; [|right; exists r; auto].
      destruct (json r) as [doc |]; cbn in H |- *; [|reflexivity].
      destruct (station_member doc) as [[stations | so] |]; cbn in H |- *;
        try reflexivity.
      destruct (so_name so) as [n |]; cbn in H |- *; [|reflexivity].
      destruct (first_value doc) as [t | e1]; cbn in H |- *; [|discriminate H].
      destruct (so_key so) as [k |]; cbn in H |- *; [discriminate H | reflexivity].
    + intros H. split; [reflexivity | left; congruence].
Qed.

Lemma get_station_data_failures_witness :
  get_station_data Example.unnamed_answer default_parser (Example.fresh "1")
    Example.later_world =
  (Raise (KeyError "name"),
   requested (data_url default_parser (Example.fresh "1")) Example.later_world).
Proof.
  refine (proj1 (proj2 (proj2 (proj2 (proj1 (proj2
            (get_station_data_failures Example.unnamed_answer default_parser
               (Example.fresh "1") Example.later_world))
            _ eq_refl eq_refl) _ eq_refl)) _ eq_refl) eq_refl).
Defined.

(** X10. An iteration of the scan returns, rather than raises, exactly
    when the station's timestamp is one that [datetime] represents and
    either the station is more than 2 days old, by its timestamp cut to
    whole seconds, and has a name, or it is not and [get_station_data]
    returns for it. *)
Theorem iteration_returns_exactly_when env self now acc s w :
  (exists acc', fst (scan_station env self now acc s w) = Ok acc') <->
  representable s /\
  (Datetime.timedelta_days 2 < age_in_seconds now s /\ st_name s <> None \/
   age_in_seconds now s <= Datetime.timedelta_days 2 /\
   exists o, fst (get_station_data env self s w) = Ok o).
Proof.
  rewrite scan_station_value, get_station_data_value.
  unfold visit, representable, age_in_seconds, Datetime.fromtimestamp, too_old.
  destruct (Z.leb_spec Datetime.min_timestamp (st_updated s / 1000)) as [H1 | H1];
    destruct (Z.leb_spec (st_updated s / 1000) Datetime.max_timestamp) as [H2 | H2];
    cbn [andb rbind];
    try (split; [intros [acc' H]; discriminate H | intros [H _]; lia]).
  destruct (Z.ltb_spec (Datetime.timedelta_days 2)
              (now - st_updated s / 1000 * Datetime.second)) as [H3 | H3].
  - destruct (st_name s) as [n |]; cbn.
    + split; [intros _ | intros _; eauto].
      split; [lia|]. left. split; [exact H3 | discriminate].
    + split; [intros [acc' H]; discriminate H|].
      intros [_ [[_ H] | [H _]]]; [contradiction|].
      unfold Datetime.timedelta_days, Datetime.day, Datetime.second in *. lia.
  - destruct (reading env self s) as [o | e]; cbn.
    + split; [intros _ | intros _; eauto].
      split; [lia|]. right. split; [exact H3 | eauto].
    + split; [intros [acc' H]; discriminate H|].
      intros [_ [[H _] | [_ [o H]]]]; [|discriminate H].
      unfold Datetime.timedelta_days, Datetime.day, Datetime.second in *. lia.
Qed.

Lemma iteration_returns_exactly_when_witness :
  exists acc',
    fst (scan_station Example.only_stale_named default_parser Example.now
           (min_placeholder, max_placeholder) Example.stale_named initial_world)
    = Ok acc'.
Proof.
  apply (proj2 (iteration_returns_exactly_when Example.only_stale_named default_parser
                  Example.now (min_placeholder, max_placeholder) Example.stale_named
                  initial_world)).
  split; [vm_compute; split; discriminate|].
  left. split; [reflexivity | discriminate].
Defined.

End Failures.

(** *** What the run asks the service, and what it depends on *)

Module Requests.
Import Effects ScanFacts TraceFacts.

(** A run that does not get a list of stations asks for nothing but the
    list. *)
Lemma run_without_list env self w :
  (forall l, ~ fetches env self l) ->
  requests (snd (temperatures_parameter_2 env self w)) = requests w ++ [list_url self].
Proof.
  intros Hno.
  unfold temperatures_parameter_2, _make_request, requests_get, datetime_now,
    bind, lift, response_json, list_url.
  cbn -[for_each].
  pose proof (fun l r doc H1 H2 H3 => Hno l (ex_intro _ r (ex_intro _ doc
                (conj H1 (conj H2 H3))))) as Hno'.
  cbn in Hno'.
  destruct (http env _) as [r | e] eqn:Hr; cbn -[for_each]; [|reflexivity].
  destruct (json r) as [doc |] eqn:Hd; cbn -[for_each]; [|reflexivity].
  destruct (station_member doc) as [[l | o] |] eqn:Hm; cbn -[for_each];
    [| |reflexivity].
  - exfalso. exact (Hno' l r doc eq_refl Hd Hm).
  - destruct (so_key o), (so_name o), (so_rest o); reflexivity.
Qed.

(** X11. Whatever its outcome, a run first requests the station list,
    and every later request is for the data of a station that the
    fetched list names, at a URL under the base URL that ends with the
    parser's suffix. *)
Theorem run_requests_list_then_listed_stations env self w :
  exists us,
    requests (snd (temperatures_parameter_2 env self w)) =
      requests w ++ list_url self :: us /\
    forall u, In u us ->
      own_url self u /\
      exists l s, fetches env self l /\ In s l /\ u = data_url self s.
Proof.
  destruct (http env (list_url self)) as [r | e] eqn:Hr.
  2: { exists []. split; [|contradiction]. apply run_without_list.
       intros l (r & doc & Hr' & _). unfold list_url in Hr. congruence. }
  destruct (json r) as [doc |] eqn:Hd.
  2: { exists []. split; [|contradiction]. apply run_without_list.
       intros l (r' & doc & Hr' & Hd' & _). unfold list_url in Hr. congruence. }
  destruct (station_member doc) as [[l | o] |] eqn:Hm.
  2, 3: exists []; (split; [|contradiction]); apply run_without_list;
        intros l (r' & doc' & Hr' & Hd' & Hm'); unfold list_url in Hr; congruence.
  assert (Hf : fetches env self l) by (exists r, doc; auto).
  rewrite (run_fetched env self w l Hf).
  destruct (for_each_requests env self (clock env (clock_reads w))
              (Py.sorted String.leb st_key l) (min_placeholder, max_placeholder)
              (ticked (requested (list_url self) w))) as (us & Hus & HF).
  change (requests (ticked (requested (list_url self) w)))
    with (requests w ++ [list_url self]) in Hus.
  exists us. split.
  - destruct (for_each _ _ _ _) as [[acc | e] w']; cbn [fst snd] in Hus |- *;
      cbn [printed requests]; rewrite Hus, <- app_assoc; reflexivity.
  - intros u Hu. rewrite Forall_forall in HF. destruct (HF u Hu) as (s & Hs & ->).
    split; [exists (station_data_path (st_key s)); reflexivity|].
    exists l, s. split; [exact Hf|]. split; [|reflexivity].
    exact (Permutation_in s
             (Permutation_sym (SortedFacts.sorted_perm String.leb st_key l)) Hs).
Qed.

(** Two lists sorted by key that hold the same stations, no two with
    the same key, are the same list. *)
Lemma sorted_unique (a : list Station) :
  forall b,
    StronglySorted (ordered String.leb st_key) a ->
    StronglySorted (ordered String.leb st_key) b ->
    Permutation a b -> NoDup (map st_key a) -> a = b.
Proof.
  induction a as [| x a IH]; intros b Ha Hb Hp Hn.
  - apply Permutation_nil in Hp. congruence.
  - destruct b as [| y b]; [apply Permutation_sym, Permutation_nil in Hp; discriminate|].
    apply StronglySorted_inv in Ha, Hb.
    destruct Ha as [Ha Hx], Hb as [Hb Hy]. rewrite Forall_forall in Hx, Hy.
    cbn in Hn. apply NoDup_cons_iff in Hn. destruct Hn as [Hnot Hn].
    assert (E : x = y).
    { assert (Hxin : In x (y :: b)) by (eapply Permutation_in; [exact Hp | left; reflexivity]).
      assert (Hyin : In y (x :: a))
        by (eapply Permutation_in; [symmetry; exact Hp | left; reflexivity]).
      destruct Hxin as [-> | Hxin]; [reflexivity|].
      destruct Hyin as [-> | Hyin]; [reflexivity|].
      exfalso. apply Hnot.
      rewrite (String.leb_antisym _ _ (Hx y Hyin) (Hy x Hxin)).
      apply in_map, Hyin. }
    subst y. f_equal. apply IH; auto.
    eapply Permutation_cons_inv, Hp.
Qed.

Lemma sorted_order_free (l1 l2 : list Station) :
  Permutation l1 l2 -> NoDup (map st_key l1) ->
  Py.sorted String.leb st_key l1 = Py.sorted String.leb st_key l2.
Proof.
  intros Hp Hn.
  assert (Hs : forall l, StronglySorted (ordered String.leb st_key)
                           (Py.sorted String.leb st_key l))
    by (intros l; apply SortedFacts.sorted_sorted;
        [apply String.leb_total | apply SortedFacts.string_leb_trans]).
  apply sorted_unique; auto.
  - eapply perm_trans; [symmetry; apply SortedFacts.sorted_perm|].
    eapply perm_trans; [exact Hp | apply SortedFacts.sorted_perm].
  - eapply Permutation_NoDup; [|exact Hn].
    apply Permutation_map, SortedFacts.sorted_perm.
Qed.

(** [get_station_data] reads of the service only the answer to its own
    request. *)
Lemma get_station_data_ext env1 env2 self s w :
  http env1 (data_url self s) = http env2 (data_url self s) ->
  get_station_data env1 self s w = get_station_data env2 self s w.
Proof.
  intros H. unfold get_station_data, _make_request, requests_get, bind.
  fold (data_url self s). rewrite H. reflexivity.
Qed.

Lemma for_each_ext env1 env2 self now l :
  (forall s, In s l -> http env1 (data_url self s) = http env2 (data_url self s)) ->
  forall acc w,
    for_each l (scan_station env1 self now) acc w =
    for_each l (scan_station env2 self now) acc w.
Proof.
  induction l as [| s l IH]; intros H acc w; [reflexivity|].
  cbn [for_each]. unfold bind.
  assert (E : scan_station env1 self now acc s w = scan_station env2 self now acc s w).
  { unfold scan_station, bind.
    destruct (lift (Datetime.fromtimestamp (st_updated s / 1000)) w) as [[u | e] w1];
      [|reflexivity].
    destruct (too_old now u); [reflexivity|].
    rewrite (get_station_data_ext env1 env2 self s w1 (H s (or_introl eq_refl))).
    reflexivity. }
  rewrite E. destruct (scan_station env2 self now acc s w) as [[acc' | e] w'];
    [|reflexivity].
  apply IH. intros s' Hs'. apply H. right. exact Hs'.
Qed.

(** X12. The run depends on the service only through the stations that
    the list names and the answers for those stations: when no two
    stations of the list have the same key, two services that list the
    same stations in different orders and answer alike for each of
    them give, at the same instant, the same run: the same outcome, the
    same lines, the same requests in the same order and the same log. *)
Theorem list_order_is_irrelevant env1 env2 self w l1 l2 :
  fetches env1 self l1 ->
  fetches env2 self l2 ->
  Permutation l1 l2 ->
  NoDup (map st_key l1) ->
  (forall s, In s l1 -> http env1 (data_url self s) = http env2 (data_url self s)) ->
  clock env1 (clock_reads w) = clock env2 (clock_reads w) ->
  temperatures_parameter_2 env1 self w = temperatures_parameter_2 env2 self w.
Proof.
  intros Hf1 Hf2 Hp Hn Hh Hc.
  rewrite (run_fetched env1 self w l1 Hf1), (run_fetched env2 self w l2 Hf2).
  rewrite <- Hc, <- (sorted_order_free l1 l2 Hp Hn).
  rewrite (for_each_ext env1 env2 self (clock env1 (clock_reads w))
             (Py.sorted String.leb st_key l1)); [reflexivity|].
  intros s Hs. apply Hh.
  exact (Permutation_in s
           (Permutation_sym (SortedFacts.sorted_perm String.leb st_key l1)) Hs).
Qed.

Lemma list_order_is_irrelevant_witness :
  temperatures_parameter_2 Example.three_stations default_parser Example.later_world =
  temperatures_parameter_2 Scenario.three_stations_reordered default_parser
    Example.later_world.
Proof.
  apply (list_order_is_irrelevant Example.three_stations
           Scenario.three_stations_reordered default_parser Example.later_world
           [Example.fresh "3"; Example.fresh "1"; Example.fresh "2"]
           [Example.fresh "1"; Example.fresh "2"; Example.fresh "3"]).
  - eexists. eexists. repeat split; reflexivity.
  - eexists. eexists. repeat split; reflexivity.
  - apply (Permutation_cons_app [Example.fresh "1"; Example.fresh "2"] []).
    apply Permutation_refl.
  - repeat constructor; cbn; intuition discriminate.
  - intros s [<- | [<- | [<- | []]]]; reflexivity.
  - reflexivity.
Defined.

End Requests.

(** *** Further properties of [parameters] *)

Module Listing.
Import Effects.

Lemma int_raises_value_error s e : Py.int s = Raise e -> e = ValueError.
Proof.
  unfold Py.int.
  destruct (Py.read_sign _) as [neg body].
  destruct (Py.read_digits body) as [[| d ds] [| c r]];
    try (intros H; congruence).
  destruct (_ <? _)%nat; intros H; congruence.
Qed.

(** One key that [int] refuses makes the whole decoration raise. *)
Lemma decorate_refused (l : list Param) x :
  In x l -> (forall z, Py.int (p_key x) <> Ok z) ->
  decorate (fun x => Py.int (p_key x)) l = Raise ValueError.
Proof.
  induction l as [| y l IH]; intros Hin Hx; [contradiction|].
  cbn. destruct (Py.int (p_key y)) as [k | e] eqn:Ey; cbn.
  - destruct Hin as [-> | Hin]; [exfalso; exact (Hx k Ey)|].
    rewrite (IH Hin Hx). reflexivity.
  - rewrite (int_raises_value_error _ _ Ey). reflexivity.
Qed.

(** X13. A key that [int] refuses stops [parameters] before anything is
    printed: when one entry of the catalog has a key in ASCII that is
    not an integer in decimal, [parameters] raises [ValueError] after
    its one request, however many other entries could be printed. *)
Theorem refused_key_stops_parameters env self w r doc res x :
  http env (catalog_url self) = Ok r ->
  json r = Some doc ->
  resource doc = Some res ->
  In x res ->
  ascii_only (p_key x) ->
  (forall z, Py.int (p_key x) <> Ok z) ->
  parameters env self w = (Raise ValueError, requested (catalog_url self) w).
Proof.
  unfold catalog_url. intros Hr Hd Hres Hin _ Hx.
  unfold parameters, _make_request, requests_get, bind, lift, response_json,
    sorted_by_int.
  rewrite Hr, Hd. cbn -[for_each]. rewrite Hres. cbn -[for_each].
  rewrite (decorate_refused res x Hin Hx). reflexivity.
Qed.

Lemma refused_key_stops_parameters_witness :
  parameters (Scenario.catalog_of Scenario.bad_catalog) default_parser
    Example.later_world =
  (Raise ValueError, requested (catalog_url default_parser) Example.later_world).
Proof.
  apply (refused_key_stops_parameters (Scenario.catalog_of Scenario.bad_catalog)
           default_parser Example.later_world _ _ Scenario.bad_catalog
           (Scenario.param "x" "unknown") eq_refl eq_refl eq_refl
           (or_intror (or_introl eq_refl))).
  - repeat constructor.
  - intros z. vm_compute. discriminate.
Defined.

(** The run of [parameters] over a catalog whose keys are integers. *)
Lemma parameters_sorted env self w r doc res (ikey : Param -> Z) :
  http env (catalog_url self) = Ok r ->
  json r = Some doc ->
  resource doc = Some res ->
  (forall x, In x res -> Py.int (p_key x) = Ok (ikey x)) ->
  fst (parameters env self w) = Ok tt /\
  prints (parameters env self) w (map parameter_line (Py.sorted Z.leb ikey res)).
Proof.
  unfold catalog_url. intros Hr Hd Hres Hint.
  unfold prints, parameters, _make_request, requests_get, bind, lift,
    response_json, sorted_by_int.
  rewrite Hr, Hd. cbn. rewrite Hres. cbn.
  rewrite (Parameters.decorate_total ikey _ res Hint). cbn.
  rewrite (proj2 (Parameters.sorted_tagged ikey res)).
  match goal with
  | |- context [for_each ?ps ?b tt ?w0] =>
      destruct (Parameters.print_all ps w0) as [H1 H2]
  end.
  split; [exact H1 | rewrite H2; reflexivity].
Qed.

(** X14. Entries of the catalog whose keys have the same integer value,
    such as "2" and "02", are printed next to each other in the order
    in which the catalog lists them. *)
Theorem equal_keys_keep_catalog_order env self w r doc res (ikey : Param -> Z) :
  http env (catalog_url self) = Ok r ->
  json r = Some doc ->
  resource doc = Some res ->
  (forall x, In x res -> Py.int (p_key x) = Ok (ikey x)) ->
  exists ps,
    prints (parameters env self) w (map parameter_line ps) /\
    StronglySorted (fun a b => ikey a <= ikey b) ps /\
    forall k, filter (fun x => ikey x =? k) ps = filter (fun x => ikey x =? k) res.
Proof.
  intros Hr Hd Hres Hint.
  destruct (parameters_sorted env self w r doc res ikey Hr Hd Hres Hint) as [_ Hp].
  exists (Py.sorted Z.leb ikey res). split; [exact Hp|]. split.
  - eapply SortedFacts.sorted_weaken;
      [|apply SortedFacts.sorted_sorted;
        [apply SortedFacts.Z_leb_total | apply SortedFacts.Z_leb_trans]].
    intros a b H. apply Z.leb_le, H.
  - intros k.
    apply (SortedFacts.sorted_stable Z.leb ikey (fun k a => a =? k)).
    intros k0 a b Ha Hb. apply Z.eqb_eq in Ha, Hb. apply Z.leb_le. lia.
Qed.

Lemma equal_keys_keep_catalog_order_witness :
  exists ps,
    prints (parameters (Scenario.catalog_of Scenario.tied_catalog) default_parser)
      initial_world (map parameter_line ps) /\
    filter (fun x => Example.int_key x =? 2) ps =
      [Scenario.param "2" "first"; Scenario.param "02" "second"].
Proof.
  destruct (equal_keys_keep_catalog_order (Scenario.catalog_of Scenario.tied_catalog)
              default_parser initial_world _ _ Scenario.tied_catalog Example.int_key
              eq_refl eq_refl eq_refl) as (ps & Hp & _ & Hk).
  - intros x [<- | [<- | [<- | []]]]; reflexivity.
  - exists ps. split; [exact Hp|]. rewrite Hk. reflexivity.
Defined.

End Listing.

(** *** [main] *)

Module Cli.
Import Effects ScanFacts.

Lemma print_all_clock ps :
  forall w,
    clock_reads (snd (for_each ps (fun _ param => print (parameter_line param)) tt w))
    = clock_reads w.
Proof.
  induction ps as [| p ps IH]; intros w; [reflexivity|].
  cbn [for_each]. unfold bind.
  change (print (parameter_line p) w) with (@Ok unit tt, printed (parameter_line p) w).
  cbv beta iota. rewrite IH. reflexivity.
Qed.

(** [parameters] does not read the clock. *)
Lemma parameters_clock env self w :
  clock_reads (snd (parameters env self w)) = clock_reads w.
Proof.
  unfold parameters, _make_request, requests_get, bind, lift.
  destruct (http env _) as [r | e0]; cbn -[for_each]; [|reflexivity].
  destruct (response_json r) as [doc | e0]; cbn -[for_each]; [|reflexivity].
  destruct (getitem "resource" (resource doc)) as [res | e0]; cbn -[for_each];
    [|reflexivity].
  destruct (sorted_by_int _ res) as [ps | e0]; cbn -[for_each]; [|reflexivity].
  rewrite print_all_clock. reflexivity.
Qed.

(** In two worlds whose clocks have been read as often, the run ends
    alike and prints the same lines. *)
Lemma run_from_another_world env self w w' lines :
  clock_reads w' = clock_reads w ->
  prints (temperatures_parameter_2 env self) w lines ->
  fst (temperatures_parameter_2 env self w') = fst (temperatures_parameter_2 env self w) /\
  prints (temperatures_parameter_2 env self) w' lines.
Proof.
  intros Hc Hp.
  destruct (run_spec env self w) as [Hv1 Hp1].
  destruct (run_spec env self w') as [Hv2 Hp2].
  cbv zeta in *. rewrite Hc in Hv2, Hp2.
  split; [congruence|].
  unfold prints in *. rewrite Hp1 in Hp. apply app_inv_head in Hp.
  rewrite Hp2, Hp. reflexivity.
Qed.

(** X15. Called with both options, [main] prints the catalog and then
    the report: when [parameters] and [temperatures_parameter_2] each
    return from the world in which [main] starts, [main] returns and its
    output is the lines of the first followed by the lines of the
    second. *)
Theorem main_prints_catalog_then_report inv env w catalog report :
  parse_args inv = Parsed {| ns_parameters := true; ns_temperatures := true |} ->
  List.length (argv inv) <> 1%nat ->
  fst (parameters env default_parser w) = Ok tt ->
  prints (parameters env default_parser) w catalog ->
  fst (temperatures_parameter_2 env default_parser w) = Ok tt ->
  prints (temperatures_parameter_2 env default_parser) w report ->
  fst (main inv env w) = Returns /\
  stdout (snd (main inv env w)) = stdout w ++ catalog ++ report.
Proof.
  intros Hparse Hargv Hv1 Hp1 Hv2 Hp2.
  unfold main. rewrite Hparse. apply Nat.eqb_neq in Hargv. rewrite Hargv.
  unfold when, bind, prints in *. cbn [ns_parameters ns_temperatures].
  pose proof (parameters_clock env default_parser w) as Hc.
  destruct (parameters env default_parser w) as [[[] | e] w1];
    cbn [fst snd] in Hv1, Hp1, Hc; [|discriminate].
  destruct (run_from_another_world env default_parser w w1 report Hc Hp2) as [Hv Hp].
  unfold prints in Hp. rewrite Hv2 in Hv.
  destruct (temperatures_parameter_2 env default_parser w1) as [[[] | e] w2];
    cbn [fst snd] in Hv, Hp |- *; [|discriminate].
  split; [reflexivity|]. rewrite Hp, Hp1, app_assoc. reflexivity.
Qed.

Lemma main_prints_catalog_then_report_witness :
  stdout (snd (main Scenario.both_options Scenario.catalog_and_station initial_world)) =
    [ "  3, three ()"; " 20, twenty ()";
      "Highest temperature: station1, 10.0 degrees";
      "Lowest temperature: station1, 10.0 degrees" ].
Proof.
  refine (proj2 (main_prints_catalog_then_report Scenario.both_options
                   Scenario.catalog_and_station initial_world
                   [ "  3, three ()"; " 20, twenty ()" ]
                   [ "Highest temperature: station1, 10.0 degrees";
                     "Lowest temperature: station1, 10.0 degrees" ]
                   eq_refl _ _ _ _ _)).
  - discriminate.
  - vm_compute. reflexivity.
  - vm_compute. reflexivity.
  - vm_compute. reflexivity.
  - vm_compute. reflexivity.
Defined.

Lemma print_all_requests ps :
  forall w,
    requests (snd (for_each ps (fun _ param => print (parameter_line param)) tt w))
    = requests w.
Proof.
  induction ps as [| p ps IH]; intros w; [reflexivity|].
  cbn [for_each]. unfold bind.
  change (print (parameter_line p) w) with (@Ok unit tt, printed (parameter_line p) w).
  cbv beta iota. rewrite IH. reflexivity.
Qed.

(** [parameters] makes one request, whatever comes of it. *)
Lemma parameters_requests env self w :
  requests (snd (parameters env self w)) = requests w ++ [catalog_url self].
Proof.
  unfold catalog_url, parameters, _make_request, requests_get, bind, lift.
  destruct (http env _) as [r | e0]; cbn -[for_each]; [|reflexivity].
  destruct (response_json r) as [doc | e0]; cbn -[for_each]; [|reflexivity].
  destruct (getitem "resource" (resource doc)) as [res | e0]; cbn -[for_each];
    [|reflexivity].
  destruct (sorted_by_int _ res) as [ps | e0]; cbn -[for_each]; [|reflexivity].
  rewrite print_all_requests. reflexivity.
Qed.

(** X16. [main] stops at the first operation that raises. When
    [parameters] raises, [main] ends with that exception, the catalog
    is all it has requested and the clock has not been read: the
    station list is never asked for. When [parameters] returns and
    [temperatures_parameter_2], run from the world in which [main]
    starts, raises, [main] ends with that exception. *)
Theorem main_stops_at_first_failure inv env w args e :
  parse_args inv = Parsed args ->
  ns_parameters args = true ->
  List.length (argv inv) <> 1%nat ->
  (fst (parameters env default_parser w) = Raise e ->
   fst (main inv env w) = Uncaught e /\
   requests (snd (main inv env w)) = requests w ++ [catalog_url default_parser] /\
   clock_reads (snd (main inv env w)) = clock_reads w) /\
  (ns_temperatures args = true ->
   fst (parameters env default_parser w) = Ok tt ->
   fst (temperatures_parameter_2 env default_parser w) = Raise e ->
   fst (main inv env w) = Uncaught e).
Proof.
  intros Hparse Hp Hargv.
  unfold main. rewrite Hparse. apply Nat.eqb_neq in Hargv. rewrite Hargv, Hp.
  unfold when, bind.
  pose proof (parameters_clock env default_parser w) as Hc.
  pose proof (parameters_requests env default_parser w) as Hr.
  split.
  - intros He.
    destruct (parameters env default_parser w) as [[[] | e'] w1];
      cbn [fst snd] in He, Hc, Hr |- *; [discriminate|].
    injection He as ->. auto.
  - intros Ht Hv1 Hv2. rewrite Ht.
    destruct (parameters env default_parser w) as [[[] | e'] w1];
      cbn [fst snd] in Hv1, Hc; [|discriminate].
    destruct (run_spec env default_parser w) as [Hw _].
    destruct (run_spec env default_parser w1) as [Hw1 _].
    cbv zeta in *. rewrite Hc, <- Hw, Hv2 in Hw1.
    destruct (temperatures_parameter_2 env default_parser w1) as [[[] | e'] w2];
      cbn [fst snd] in Hw1 |- *; [discriminate|].
    injection Hw1 as ->. reflexivity.
Qed.

Lemma main_stops_at_first_failure_witness :
  fst (main Scenario.both_options (Scenario.catalog_of Scenario.bad_catalog)
         initial_world) = Uncaught ValueError /\
  requests (snd (main Scenario.both_options (Scenario.catalog_of Scenario.bad_catalog)
                   initial_world)) = [catalog_url default_parser].
Proof.
  destruct (proj1 (main_stops_at_first_failure Scenario.both_options
                     (Scenario.catalog_of Scenario.bad_catalog) initial_world
                     {| ns_parameters := true; ns_temperatures := true |} ValueError
                     eq_refl eq_refl ltac:(discriminate)))
    as (Hv & Hr & _).
  - vm_compute. reflexivity.
  - split; [exact Hv | exact Hr].
Defined.

End Cli.
